(** * p4est_base.c: allocation accounting, abort handling and small utilities

    A shallow embedding of [src/p4est_base.c] and the properties its
    specification states about it.

    Data model (LP64, two's complement):
    - [int], [int32_t]: 32-bit signed, carried as [Z] and reduced by [int_wrap];
    - [size_t]: 64-bit unsigned, carried as [Z] and reduced by [size_wrap];
    - [void *], [p4est_handler_t], [sig_t]: addresses carried as [Z], with
      [NULL = 0];
    - C strings: [string] (no embedded NUL).

    The platform (libc and the operating system) is not part of the file: the
    allocator is a parameter acting on an abstract heap, the signal table is
    a finite map from signal numbers to dispositions, and everything the
    process does that is visible from outside is appended to a trace. *)

From Stdlib Require Import ZArith String Ascii List Lia DecimalString DecimalFacts.
From Stdlib Require Import DecimalPos DecimalZ.
From stdpp Require Import base gmap.

Local Open Scope Z_scope.

(** ** Machine integers *)

Module MachInt.

Definition INT_MIN : Z := - 2 ^ 31.
Definition INT_MAX : Z := 2 ^ 31 - 1.
Definition SIZE_MAX : Z := 2 ^ 64 - 1.

(** Reduction of a mathematical integer to a 32-bit two's-complement
    [int]: what the hardware keeps of an [int] operation. *)
Definition int_wrap (z : Z) : Z := (z + 2 ^ 31) mod 2 ^ 32 - 2 ^ 31.

(** Reduction to [size_t]: unsigned arithmetic is modular in C. *)
Definition size_wrap (z : Z) : Z := z mod 2 ^ 64.

Definition in_int (z : Z) : Prop := INT_MIN <= z <= INT_MAX.
Definition in_size (z : Z) : Prop := 0 <= z <= SIZE_MAX.

End MachInt.
Export MachInt.

(** ** The bit-length lookup table *)

Definition p4est_log_lookup_table : list Z :=
  [ -1; 0; 1; 1; 2; 2; 2; 2; 3; 3; 3; 3; 3; 3; 3; 3;
     4; 4; 4; 4; 4; 4; 4; 4; 4; 4; 4; 4; 4; 4; 4; 4;
     5; 5; 5; 5; 5; 5; 5; 5; 5; 5; 5; 5; 5; 5; 5; 5;
     5; 5; 5; 5; 5; 5; 5; 5; 5; 5; 5; 5; 5; 5; 5; 5;
     6; 6; 6; 6; 6; 6; 6; 6; 6; 6; 6; 6; 6; 6; 6; 6;
     6; 6; 6; 6; 6; 6; 6; 6; 6; 6; 6; 6; 6; 6; 6; 6;
     6; 6; 6; 6; 6; 6; 6; 6; 6; 6; 6; 6; 6; 6; 6; 6;
     6; 6; 6; 6; 6; 6; 6; 6; 6; 6; 6; 6; 6; 6; 6; 6;
     7; 7; 7; 7; 7; 7; 7; 7; 7; 7; 7; 7; 7; 7; 7; 7;
     7; 7; 7; 7; 7; 7; 7; 7; 7; 7; 7; 7; 7; 7; 7; 7;
     7; 7; 7; 7; 7; 7; 7; 7; 7; 7; 7; 7; 7; 7; 7; 7;
     7; 7; 7; 7; 7; 7; 7; 7; 7; 7; 7; 7; 7; 7; 7; 7;
     7; 7; 7; 7; 7; 7; 7; 7; 7; 7; 7; 7; 7; 7; 7; 7;
     7; 7; 7; 7; 7; 7; 7; 7; 7; 7; 7; 7; 7; 7; 7; 7;
     7; 7; 7; 7; 7; 7; 7; 7; 7; 7; 7; 7; 7; 7; 7; 7;
     7; 7; 7; 7; 7; 7; 7; 7; 7; 7; 7; 7; 7; 7; 7; 7 ].

(** Reading the table at a byte: [p4est_log_lookup_table[v]].  Outside
    [0..255] the C read is out of bounds; the model has no value there. *)
Definition log2_floor (v : Z) : option Z :=
  if (0 <=? v) && (v <? 256) then p4est_log_lookup_table !! Z.to_nat v else None.

(** What the table is documented to hold. *)
Definition log2_floor_spec (v : Z) : Z := if v =? 0 then -1 else Z.log2 v.

Definition table_agrees_upto (n : nat) : bool :=
  forallb (fun i => match p4est_log_lookup_table !! i with
                    | Some e => e =? log2_floor_spec (Z.of_nat i)
                    | None => false
                    end) (seq 0 n).

(** ** C strings and formatted output *)

Module CString.
Local Open Scope string_scope.

Definition newline : string := String (ascii_of_nat 10) EmptyString.

(** The [%d] and [%ld] conversions of printf. *)
Definition printf_d (z : Z) : string := NilZero.string_of_int (Z.to_int z).

(** [snprintf (buf, size, ...)] keeps at most [size - 1] characters of the
    formatted text [s]. *)
Definition snprintf (size : Z) (s : string) : string :=
  substring 0 (Z.to_nat (size - 1)) s.

(** [strrchr (s, c)] for a character [c] other than NUL: the suffix of [s]
    that starts at the last occurrence of [c], or [None] for the null
    pointer when [c] does not occur. *)
Fixpoint strrchr (s : string) (c : ascii) : option string :=
  match s with
  | EmptyString => None
  | String a t =>
      match strrchr t c with
      | Some r => Some r
      | None => if Ascii.eqb a c then Some s else None
      end
  end.

(** [++str] on a pointer into a string. *)
Definition str_next (s : string) : string :=
  match s with
  | EmptyString => EmptyString
  | String _ t => t
  end.

(** [c] does not occur in [s]. *)
Fixpoint lacks (c : ascii) (s : string) : bool :=
  match s with
  | EmptyString => true
  | String a t => negb (Ascii.eqb a c) && lacks c t
  end.

Definition concat_lines (l : list string) : string :=
  fold_right append EmptyString l.

End CString.
Export CString.

(** ** Observable effects *)

Inductive stream := Stdout | Stderr.

Inductive event :=
| EvWrite (f : stream) (text : string)   (* fprintf (f, ...) *)
| EvFlush (f : stream)                   (* fflush (f) *)
| EvLineBuffered (f : stream)            (* setvbuf (f, NULL, _IOLBF, 0) *)
| EvCheckFailed (msg : string)           (* the report of a failed P4EST_CHECK_ABORT *)
| EvCall (fn data : Z)                   (* call of fn (data) through a pointer *)
| EvAbort.                               (* abort () *)

Definition stream_eqb (f g : stream) : bool :=
  match f, g with
  | Stdout, Stdout | Stderr, Stderr => true
  | _, _ => false
  end.

(** The text that reached a stream, in order. *)
Fixpoint written (f : stream) (t : list event) : string :=
  match t with
  | [] => EmptyString
  | EvWrite g s :: t' =>
      if stream_eqb f g then append s (written f t') else written f t'
  | _ :: t' => written f t'
  end.

Definition NULL : Z := 0.

(** ** A small platform for worked examples

    A bump allocator over a break address: requests of size zero and
    requests it cannot represent return the null pointer.  The signal table
    holds the default disposition for signals 2, 11 and 12. *)

Definition bump_malloc (size : Z) (brk : Z) : Z * Z :=
  if size =? 0 then (NULL, brk) else (brk, brk + size).

Definition bump_calloc (nmemb size : Z) (brk : Z) : Z * Z :=
  let n := nmemb * size in
  if (n =? 0) || (SIZE_MAX <? n) then (NULL, brk) else (brk, brk + n).

Definition bump_realloc (ptr size : Z) (brk : Z) : Z * Z :=
  if size =? 0 then (NULL, brk) else (brk, brk + size).

Definition bump_free (ptr : Z) (brk : Z) : Z := brk.

(** An allocator that always has room: it answers a request of size above
    zero with an address above zero. *)
Definition roomy_malloc (size : Z) (brk : Z) : Z * Z :=
  if size =? 0 then (NULL, brk) else (Z.abs brk + 1, Z.abs brk + 1 + size).

Definition default_signals : gmap Z Z := {[ 2 := 0; 11 := 0; 12 := 0 ]}.

Definition sample_stack : list string :=
  [ "/usr/lib/libp4est.so(p4est_abort+0x2c) [0x7f01]";
    "./p4est_test(main+0x1f) [0x4011]" ]%string.

Section Base.

(** *** The platform *)

(** The allocator of the C library, acting on a heap the model does not
    look into.  Each function returns what the C function returns. *)
Context {heap_t : Type}.
Variable malloc : Z -> heap_t -> Z * heap_t.
Variable calloc : Z -> Z -> heap_t -> Z * heap_t.
Variable realloc : Z -> Z -> heap_t -> Z * heap_t.
Variable free : Z -> heap_t -> heap_t.

(** Constants of <signal.h> and <stdio.h>. *)
Variables SIGINT SIGSEGV SIGUSR2 : Z.
Variable SIG_ERR : Z.
Variable BUFSIZ : Z.

(** Build configuration: whether P4EST_BACKTRACE is defined. *)
Variable P4EST_BACKTRACE : bool.

(** The address of the static function [p4est_signal_handler]. *)
Variable p4est_signal_handler_addr : Z.

(** *** Process state: the file's static variables and the platform state *)

Record world := mkWorld {
  malloc_count : Z;
  free_count : Z;
  p4est_base_identifier : Z;
  p4est_abort_handler : Z;
  p4est_abort_data : Z;
  signals_caught : Z;
  system_int_handler : Z;
  system_segv_handler : Z;
  system_usr2_handler : Z;
  (* the disposition of every signal the process may set *)
  sig_table : gmap Z Z;
  heap : heap_t;
  (* symbol strings of the return addresses on the stack, innermost first *)
  call_stack : list string;
  trace : list event
}.

(** The values of the static initialisers. *)
Definition initial_world (sigs : gmap Z Z) (h : heap_t) (stack : list string) : world :=
  mkWorld 0 0 (-1) NULL NULL 0 NULL NULL NULL sigs h stack [].

Definition set_malloc_count (v : Z) (w : world) : world :=
  mkWorld v (free_count w) (p4est_base_identifier w) (p4est_abort_handler w)
    (p4est_abort_data w) (signals_caught w) (system_int_handler w)
    (system_segv_handler w) (system_usr2_handler w) (sig_table w) (heap w)
    (call_stack w) (trace w).
Definition set_free_count (v : Z) (w : world) : world :=
  mkWorld (malloc_count w) v (p4est_base_identifier w) (p4est_abort_handler w)
    (p4est_abort_data w) (signals_caught w) (system_int_handler w)
    (system_segv_handler w) (system_usr2_handler w) (sig_table w) (heap w)
    (call_stack w) (trace w).
Definition set_p4est_base_identifier (v : Z) (w : world) : world :=
  mkWorld (malloc_count w) (free_count w) v (p4est_abort_handler w)
    (p4est_abort_data w) (signals_caught w) (system_int_handler w)
    (system_segv_handler w) (system_usr2_handler w) (sig_table w) (heap w)
    (call_stack w) (trace w).
Definition set_p4est_abort_handler (v : Z) (w : world) : world :=
  mkWorld (malloc_count w) (free_count w) (p4est_base_identifier w) v
    (p4est_abort_data w) (signals_caught w) (system_int_handler w)
    (system_segv_handler w) (system_usr2_handler w) (sig_table w) (heap w)
    (call_stack w) (trace w).
Definition set_p4est_abort_data (v : Z) (w : world) : world :=
  mkWorld (malloc_count w) (free_count w) (p4est_base_identifier w)
    (p4est_abort_handler w) v (signals_caught w) (system_int_handler w)
    (system_segv_handler w) (system_usr2_handler w) (sig_table w) (heap w)
    (call_stack w) (trace w).
Definition set_signals_caught (v : Z) (w : world) : world :=
  mkWorld (malloc_count w) (free_count w) (p4est_base_identifier w)
    (p4est_abort_handler w) (p4est_abort_data w) v (system_int_handler w)
    (system_segv_handler w) (system_usr2_handler w) (sig_table w) (heap w)
    (call_stack w) (trace w).
Definition set_system_int_handler (v : Z) (w : world) : world :=
  mkWorld (malloc_count w) (free_count w) (p4est_base_identifier w)
    (p4est_abort_handler w) (p4est_abort_data w) (signals_caught w) v
    (system_segv_handler w) (system_usr2_handler w) (sig_table w) (heap w)
    (call_stack w) (trace w).
Definition set_system_segv_handler (v : Z) (w : world) : world :=
  mkWorld (malloc_count w) (free_count w) (p4est_base_identifier w)
    (p4est_abort_handler w) (p4est_abort_data w) (signals_caught w)
    (system_int_handler w) v (system_usr2_handler w) (sig_table w) (heap w)
    (call_stack w) (trace w).
Definition set_system_usr2_handler (v : Z) (w : world) : world :=
  mkWorld (malloc_count w) (free_count w) (p4est_base_identifier w)
    (p4est_abort_handler w) (p4est_abort_data w) (signals_caught w)
    (system_int_handler w) (system_segv_handler w) v (sig_table w) (heap w)
    (call_stack w) (trace w).
Definition set_sig_table (v : gmap Z Z) (w : world) : world :=
  mkWorld (malloc_count w) (free_count w) (p4est_base_identifier w)
    (p4est_abort_handler w) (p4est_abort_data w) (signals_caught w)
    (system_int_handler w) (system_segv_handler w) (system_usr2_handler w)
    v (heap w) (call_stack w) (trace w).
Definition set_heap (v : heap_t) (w : world) : world :=
  mkWorld (malloc_count w) (free_count w) (p4est_base_identifier w)
    (p4est_abort_handler w) (p4est_abort_data w) (signals_caught w)
    (system_int_handler w) (system_segv_handler w) (system_usr2_handler w)
    (sig_table w) v (call_stack w) (trace w).
Definition emit (e : event) (w : world) : world :=
  mkWorld (malloc_count w) (free_count w) (p4est_base_identifier w)
    (p4est_abort_handler w) (p4est_abort_data w) (signals_caught w)
    (system_int_handler w) (system_segv_handler w) (system_usr2_handler w)
    (sig_table w) (heap w) (call_stack w) (trace w ++ [e]).

(** *** Computations: a state monad whose runs either return or end in
    [abort ()] *)

Inductive result (A : Type) :=
| Returned (a : A) (w : world)
| Aborted (w : world).
Arguments Returned {A} a w.
Arguments Aborted {A} w.

Definition M (A : Type) : Type := world -> result A.

Definition ret {A} (a : A) : M A := fun w => Returned a w.
Definition bind {A B} (m : M A) (k : A -> M B) : M B :=
  fun w => match m w with
           | Returned a w' => k a w'
           | Aborted w' => Aborted w'
           end.
Definition gets {A} (f : world -> A) : M A := fun w => Returned (f w) w.
Definition modify (f : world -> world) : M unit := fun w => Returned tt (f w).

Notation "'let*' x ':=' m 'in' k" := (bind m (fun x => k))
  (at level 10, x name, m at level 100, k at level 200).
Notation "m ;; k" := (bind m (fun _ => k))
  (at level 100, k at level 200, right associativity).

(** *** Platform calls *)

Definition call_malloc (size : Z) : M Z :=
  fun w => let (r, h) := malloc size (heap w) in Returned r (set_heap h w).
Definition call_calloc (nmemb size : Z) : M Z :=
  fun w => let (r, h) := calloc nmemb size (heap w) in Returned r (set_heap h w).
Definition call_realloc (ptr size : Z) : M Z :=
  fun w => let (r, h) := realloc ptr size (heap w) in Returned r (set_heap h w).
Definition call_free (ptr : Z) : M unit :=
  modify (fun w => set_heap (free ptr (heap w)) w).

(** [signal (sig, h)]: for a signal whose disposition the process may set,
    install [h] and return the previous disposition; otherwise change
    nothing and return [SIG_ERR]. *)
Definition signal (sig h : Z) : M Z :=
  fun w => match sig_table w !! sig with
           | Some old => Returned old (set_sig_table (<[sig := h]> (sig_table w)) w)
           | None => Returned SIG_ERR w
           end.

Definition fprintf (f : stream) (text : string) : M unit :=
  modify (emit (EvWrite f text)).
Definition fflush (f : stream) : M unit := modify (emit (EvFlush f)).

(** [abort ()] does not return. *)
Definition abort {A} : M A := fun w => Aborted (emit EvAbort w).

(** [backtrace (buffer, size)] followed by [backtrace_symbols]: the symbol
    strings of the innermost [size] frames. *)
Definition backtrace_symbols (size : nat) : M (list string) :=
  gets (fun w => firstn size (call_stack w)).

(** *** The functions of p4est_base.c *)

(** [snprintf (prefix, BUFSIZ, "[%d] ", p4est_base_identifier)], or the
    empty string for a negative identifier. *)
Definition abort_prefix (identifier : Z) : string :=
  if 0 <=? identifier
  then snprintf BUFSIZ ("[" ++ printf_d identifier ++ "] ")%string
  else EmptyString.

(** The part of a symbol string the backtrace prints: what follows the
    last slash, or the whole string when there is none. *)
Definition frame_name (bt_string : string) : string :=
  match strrchr bt_string "/"%char with
  | Some str => str_next str
  | None => bt_string
  end.

(** The body of the loop over the captured frames. *)
Fixpoint print_frames (prefix : string) (bt_strings : list string) : M unit :=
  match bt_strings with
  | [] => ret tt
  | s :: rest =>
      fprintf Stderr (prefix ++ "   " ++ frame_name s ++ newline)%string ;;
      print_frames prefix rest
  end.

(** The call through p4est_abort_handler is recorded as the event EvCall,
    at the point where control passes to the callback.  The callback is code
    from outside this file and nothing of it is modelled: it may write,
    change the state or end the process.  What follows EvCall here, abort (),
    is the run in which the callback hands control back at once.  The array
    backtrace_symbols allocates is released by the plain free before the
    flushes and never touches the counters. *)
Definition p4est_abort {A} : M A :=
  let* identifier := gets p4est_base_identifier in
  let prefix := abort_prefix identifier in
  (if P4EST_BACKTRACE then
     let* bt_strings := backtrace_symbols 64 in
     let bt_size := Z.of_nat (length bt_strings) in
     fprintf Stderr
       (prefix ++ "Abort: Obtained " ++ printf_d bt_size ++ " stack frames"
               ++ newline)%string ;;
     print_frames prefix bt_strings
   else ret tt) ;;
  fflush Stdout ;;
  fflush Stderr ;;
  let* handler := gets p4est_abort_handler in
  (if negb (handler =? NULL) then
     let* data := gets p4est_abort_data in
     modify (emit (EvCall handler data))
   else ret tt) ;;
  abort.

(** Modelled from the spec: the macro P4EST_CHECK_ABORT (c, s) comes from
    p4est_base.h, which is not among the sources.  A check that fails is
    fatal and ends in the abort path; the report the macro makes of the
    message is kept as one event. *)
Definition P4EST_CHECK_ABORT (c : bool) (s : string) : M unit :=
  if c then ret tt else (modify (emit (EvCheckFailed s)) ;; p4est_abort).

Definition p4est_signal_handler (sig : Z) : M unit :=
  let* identifier := gets p4est_base_identifier in
  let prefix := abort_prefix identifier in
  let sigstr :=
    if sig =? SIGINT then "INT"%string
    else if sig =? SIGSEGV then "SEGV"%string
    else if sig =? SIGUSR2 then "USR2"%string
    else "<unknown>"%string in
  fprintf Stderr (prefix ++ "Abort: Signal " ++ sigstr ++ newline)%string ;;
  p4est_abort.

(** The arguments are the pointers themselves, converted to [int32_t]. *)
Definition p4est_int32_compare (v1 v2 : Z) : Z :=
  int_wrap (int_wrap v1 - int_wrap v2).

Definition p4est_malloc (size : Z) : M Z :=
  let* r := call_malloc size in
  (if 0 <? size then
     modify (fun w => set_malloc_count (int_wrap (malloc_count w + 1)) w)
   else
     modify (fun w => set_malloc_count
                        (int_wrap (malloc_count w + (if r =? NULL then 0 else 1))) w)) ;;
  ret r.

Definition p4est_calloc (nmemb size : Z) : M Z :=
  let* r := call_calloc nmemb size in
  (if 0 <? size_wrap (nmemb * size) then
     modify (fun w => set_malloc_count (int_wrap (malloc_count w + 1)) w)
   else
     modify (fun w => set_malloc_count
                        (int_wrap (malloc_count w + (if r =? NULL then 0 else 1))) w)) ;;
  ret r.

Definition p4est_realloc (ptr size : Z) : M Z :=
  let* r := call_realloc ptr size in
  (if ptr =? NULL then
     if 0 <? size then
       modify (fun w => set_malloc_count (int_wrap (malloc_count w + 1)) w)
     else
       modify (fun w => set_malloc_count
                          (int_wrap (malloc_count w + (if r =? NULL then 0 else 1))) w)
   else if size =? 0 then
     modify (fun w => set_free_count
                        (int_wrap (free_count w + (if r =? NULL then 1 else 0))) w)
   else ret tt) ;;
  ret r.

Definition p4est_free (ptr : Z) : M unit :=
  if negb (ptr =? NULL) then
    modify (fun w => set_free_count (int_wrap (free_count w + 1)) w) ;;
    call_free ptr
  else ret tt.

Definition p4est_memory_check : M unit :=
  let* m := gets malloc_count in
  let* f := gets free_count in
  P4EST_CHECK_ABORT (m =? f) "Memory balance".

Definition p4est_set_linebuffered (f : stream) : M unit :=
  modify (emit (EvLineBuffered f)).

Definition p4est_set_abort_handler (identifier handler data : Z) : M unit :=
  modify (set_p4est_base_identifier identifier) ;;
  modify (set_p4est_abort_handler handler) ;;
  modify (set_p4est_abort_data data) ;;
  let* caught := gets signals_caught in
  if negb (handler =? NULL) && (caught =? 0) then
    let* h_int := signal SIGINT p4est_signal_handler_addr in
    modify (set_system_int_handler h_int) ;;
    P4EST_CHECK_ABORT (negb (h_int =? SIG_ERR)) "catching INT" ;;
    let* h_segv := signal SIGSEGV p4est_signal_handler_addr in
    modify (set_system_segv_handler h_segv) ;;
    P4EST_CHECK_ABORT (negb (h_segv =? SIG_ERR)) "catching SEGV" ;;
    let* h_usr2 := signal SIGUSR2 p4est_signal_handler_addr in
    modify (set_system_usr2_handler h_usr2) ;;
    P4EST_CHECK_ABORT (negb (h_usr2 =? SIG_ERR)) "catching USR2" ;;
    modify (set_signals_caught 1)
  else if (handler =? NULL) && negb (caught =? 0) then
    let* h_int := gets system_int_handler in
    signal SIGINT h_int ;;
    modify (set_system_int_handler NULL) ;;
    let* h_segv := gets system_segv_handler in
    signal SIGSEGV h_segv ;;
    modify (set_system_segv_handler NULL) ;;
    let* h_usr2 := gets system_usr2_handler in
    signal SIGUSR2 h_usr2 ;;
    modify (set_system_usr2_handler NULL) ;;
    modify (set_signals_caught 0)
  else ret tt.

(** *** What an abort leaves behind *)

Definition emit_all (es : list event) (w : world) : world :=
  fold_left (fun w' e => emit e w') es w.

(** One line of the backtrace. *)
Definition frame_line (prefix : string) (s : string) : event :=
  EvWrite Stderr (prefix ++ "   " ++ frame_name s ++ newline)%string.

(** The events of one run of p4est_abort, in order. *)
Definition abort_events (w : world) : list event :=
  let prefix := abort_prefix (p4est_base_identifier w) in
  let bt_strings := firstn 64 (call_stack w) in
  (if P4EST_BACKTRACE then
     EvWrite Stderr
       (prefix ++ "Abort: Obtained " ++ printf_d (Z.of_nat (length bt_strings))
               ++ " stack frames" ++ newline)%string
     :: map (frame_line prefix) bt_strings
   else [])
  ++ [EvFlush Stdout; EvFlush Stderr]
  ++ (if negb (p4est_abort_handler w =? NULL)
      then [EvCall (p4est_abort_handler w) (p4est_abort_data w)] else [])
  ++ [EvAbort].

(** The three assignments every call starts with. *)
Definition rebind (identifier handler data : Z) (w : world) : world :=
  set_p4est_abort_data data
    (set_p4est_abort_handler handler
       (set_p4est_base_identifier identifier w)).

(** *** The report as the specification words it *)

(** [b] is [s] with its path prefix stripped: [b] has no slash and [s] is
    either [b] itself or some directory part, a slash, and [b]. *)
Definition is_basename_of (b s : string) : Prop :=
  lacks "/" b = true /\ (s = b \/ exists dir, s = (dir ++ "/" ++ b)%string).

(** A header line with the frame count, then one line per frame name, each
    line behind the same prefix. *)
Definition report_text (prefix : string) (names : list string) : string :=
  ((prefix ++ "Abort: Obtained " ++ printf_d (Z.of_nat (length names))
           ++ " stack frames" ++ newline)
   ++ concat_lines (map (fun b => prefix ++ "   " ++ b ++ newline) names))%string.

(** The report with the frame lines as the specification prints them:
    "[N]" and three spaces before the symbol. *)
Definition stated_report_text (identifier : Z) (names : list string) : string :=
  (("[" ++ printf_d identifier ++ "] Abort: Obtained "
        ++ printf_d (Z.of_nat (length names)) ++ " stack frames" ++ newline)
   ++ concat_lines
        (map (fun b => "[" ++ printf_d identifier ++ "]   " ++ b ++ newline) names))%string.

(** The policy of p4est_calloc keyed on the exact product of its arguments
    rather than on their [size_t] product. *)
Definition calloc_keyed_on_exact_product (w : world) : Prop :=
  forall nmemb size r w',
    in_size nmemb -> in_size size -> 0 < nmemb * size ->
    p4est_calloc nmemb size w = Returned r w' ->
    malloc_count w' = malloc_count w + 1.

(** *** Notions used to state further properties *)

(** The two counters agree. *)
Definition balanced (w : world) : Prop := malloc_count w = free_count w.

(** A client that allocates and releases one block per size, in turn. *)
Fixpoint malloc_free_pairs (sizes : list Z) : M unit :=
  match sizes with
  | [] => ret tt
  | size :: rest =>
      let* ptr := p4est_malloc size in
      p4est_free ptr ;;
      malloc_free_pairs rest
  end.

(** What a successful [signal (sig, h)] does to the signal table; a refused
    call leaves the table alone. *)
Definition signal_table (sig h : Z) (t : gmap Z Z) : gmap Z Z :=
  match t !! sig with
  | Some _ => <[sig := h]> t
  | None => t
  end.

(** The flag and the saved dispositions tell the same story as the signal
    table: either nothing is caught and nothing is saved, or the flag is 1
    and the three signals are on the internal handler. *)
Definition fault_state_consistent (w : world) : Prop :=
  (signals_caught w = 0 /\
   system_int_handler w = NULL /\ system_segv_handler w = NULL /\
   system_usr2_handler w = NULL) \/
  (signals_caught w = 1 /\
   sig_table w !! SIGINT = Some p4est_signal_handler_addr /\
   sig_table w !! SIGSEGV = Some p4est_signal_handler_addr /\
   sig_table w !! SIGUSR2 = Some p4est_signal_handler_addr).

(** Everything but the counters and the heap. *)
Definition same_fault_state (w w' : world) : Prop :=
  p4est_base_identifier w' = p4est_base_identifier w /\
  p4est_abort_handler w' = p4est_abort_handler w /\
  p4est_abort_data w' = p4est_abort_data w /\
  signals_caught w' = signals_caught w /\
  system_int_handler w' = system_int_handler w /\
  system_segv_handler w' = system_segv_handler w /\
  system_usr2_handler w' = system_usr2_handler w /\
  sig_table w' = sig_table w /\
  call_stack w' = call_stack w /\
  trace w' = trace w.



(** * Properties *)

#[local] Set Default Proof Using "Type".

(** ** Machine integers *)

Lemma int_wrap_id z : in_int z -> int_wrap z = z.
Proof.
unfold in_int, INT_MIN, INT_MAX, int_wrap. intros Hz.
rewrite Z.mod_small; lia.
Qed.

Lemma int_wrap_range z : in_int (int_wrap z).
Proof.
unfold in_int, INT_MIN, INT_MAX, int_wrap.
pose proof (Z.mod_pos_bound (z + 2 ^ 31) (2 ^ 32)). lia.
Qed.

Lemma size_wrap_id z : in_size z -> size_wrap z = z.
Proof.
unfold in_size, SIZE_MAX, size_wrap. intros Hz.
apply Z.mod_small. lia.
Qed.

(** ** The lookup table *)

Lemma table_length : length p4est_log_lookup_table = 256%nat.
Proof. reflexivity. Qed.

Lemma table_agrees : table_agrees_upto 256 = true.
Proof. vm_compute. reflexivity. Qed.

Lemma table_entry (i : nat) :
  (i < 256)%nat ->
  p4est_log_lookup_table !! i = Some (log2_floor_spec (Z.of_nat i)).
Proof.
  intros Hi. pose proof table_agrees as Hall.
  unfold table_agrees_upto in Hall. rewrite forallb_forall in Hall.
  specialize (Hall i).
  assert (Hin : In i (seq 0 256)) by (apply in_seq; lia).
  specialize (Hall Hin).
  destruct (p4est_log_lookup_table !! i) as [e|]; [|discriminate].
  apply Z.eqb_eq in Hall. now subst e.
Qed.

(** C9.  For every byte value v in 0..255 the table holds floor(log2 v) when
    v >= 1 and -1 when v = 0; in particular the entries at 0, 1, 128 and 255
    are -1, 0, 7 and 7. *)
Theorem log2_floor_correct (v : Z) :
  0 <= v <= 255 ->
  (v = 0 -> log2_floor v = Some (-1)) /\
  (1 <= v -> log2_floor v = Some (Z.log2 v)
             /\ 2 ^ Z.log2 v <= v < 2 ^ (Z.log2 v + 1)) /\
  log2_floor 0 = Some (-1) /\ log2_floor 1 = Some 0 /\
  log2_floor 128 = Some 7 /\ log2_floor 255 = Some 7.
Proof.
  intros Hv.
  assert (Hrd : log2_floor v = Some (log2_floor_spec v)).
  { unfold log2_floor.
    replace ((0 <=? v) && (v <? 256))%bool with true
      by (symmetry; apply andb_true_iff; split; [apply Z.leb_le|apply Z.ltb_lt]; lia).
    rewrite table_entry by lia. now rewrite Z2Nat.id by lia. }
  split; [|split].
  - intros ->. exact Hrd.
  - intros H1. split.
    + rewrite Hrd. unfold log2_floor_spec.
      destruct (Z.eqb_spec v 0); [lia|reflexivity].
    + replace (Z.log2 v + 1) with (Z.succ (Z.log2 v)) by lia.
      apply Z.log2_spec. lia.
  - repeat split; reflexivity.
Qed.

(** ** The allocation counters *)

Ltac run_monad := unfold bind, gets, modify, ret.

Lemma incr_defined (c : Z) : INT_MIN <= c < INT_MAX -> int_wrap (c + 1) = c + 1.
Proof. intros Hc. apply int_wrap_id. unfold in_int. lia. Qed.

Lemma add_zero_defined (c : Z) : in_int c -> int_wrap (c + 0) = c.
Proof. intros Hc. rewrite Z.add_0_r. now apply int_wrap_id. Qed.

Lemma size_wrap_nonneg (z : Z) : 0 <= size_wrap z.
Proof. unfold size_wrap. apply Z.mod_pos_bound. lia. Qed.

(** Without overflow the [size_t] product is the exact product. *)
Lemma size_wrap_mul_exact (nmemb size : Z) :
  0 <= nmemb -> 0 <= size -> nmemb * size <= SIZE_MAX ->
  size_wrap (nmemb * size) = nmemb * size.
Proof. intros Hn Hs Hp. apply size_wrap_id. unfold in_size. nia. Qed.

(** What p4est_malloc does, in one equation. *)
Lemma p4est_malloc_run (size : Z) (w : world) :
  p4est_malloc size w =
  let r := fst (malloc size (heap w)) in
  let k := if 0 <? size then 1 else if r =? NULL then 0 else 1 in
  Returned r (set_malloc_count (int_wrap (malloc_count w + k))
                (set_heap (snd (malloc size (heap w))) w)).
Proof.
  unfold p4est_malloc, call_malloc. run_monad.
  destruct (malloc size (heap w)) as [r h]. simpl.
  destruct (0 <? size); reflexivity.
Qed.

Lemma p4est_calloc_run (nmemb size : Z) (w : world) :
  p4est_calloc nmemb size w =
  let r := fst (calloc nmemb size (heap w)) in
  let k := if 0 <? size_wrap (nmemb * size) then 1
           else if r =? NULL then 0 else 1 in
  Returned r (set_malloc_count (int_wrap (malloc_count w + k))
                (set_heap (snd (calloc nmemb size (heap w))) w)).
Proof.
  unfold p4est_calloc, call_calloc. run_monad.
  destruct (calloc nmemb size (heap w)) as [r h]. simpl.
  destruct (0 <? size_wrap (nmemb * size)); reflexivity.
Qed.

(** What the two allocating calls do to the counter, as the code computes
    it.  p4est_malloc returns what malloc returns and leaves the heap as
    malloc left it; with size > 0 the allocation counter goes up by exactly
    one whatever malloc returned, with size = 0 it goes up by one if malloc
    returned a non-null pointer and stays otherwise.  p4est_calloc applies
    the same rule to the [size_t] product nmemb * size. *)
Theorem p4est_malloc_calloc_counts (w : world) (size nmemb : Z) :
  INT_MIN <= malloc_count w < INT_MAX ->
  (exists w',
      p4est_malloc size w = Returned (fst (malloc size (heap w))) w' /\
      heap w' = snd (malloc size (heap w)) /\
      free_count w' = free_count w /\
      (0 < size -> malloc_count w' = malloc_count w + 1) /\
      (size = 0 -> fst (malloc size (heap w)) <> NULL ->
         malloc_count w' = malloc_count w + 1) /\
      (size = 0 -> fst (malloc size (heap w)) = NULL ->
         malloc_count w' = malloc_count w)) /\
  (exists w',
      p4est_calloc nmemb size w = Returned (fst (calloc nmemb size (heap w))) w' /\
      heap w' = snd (calloc nmemb size (heap w)) /\
      free_count w' = free_count w /\
      (0 < size_wrap (nmemb * size) -> malloc_count w' = malloc_count w + 1) /\
      (size_wrap (nmemb * size) = 0 -> fst (calloc nmemb size (heap w)) <> NULL ->
         malloc_count w' = malloc_count w + 1) /\
      (size_wrap (nmemb * size) = 0 -> fst (calloc nmemb size (heap w)) = NULL ->
         malloc_count w' = malloc_count w)).
Proof.
  intros Hc.
  assert (Hin : in_int (malloc_count w)) by (unfold in_int; lia).
  split.
  - rewrite p4est_malloc_run. cbv zeta. eexists. split; [reflexivity|].
    simpl. repeat split.
    + intros Hs. apply Z.ltb_lt in Hs. rewrite Hs. now apply incr_defined.
    + intros -> Hr. apply Z.eqb_neq in Hr. rewrite Hr. simpl.
      now apply incr_defined.
    + intros -> Hr. apply Z.eqb_eq in Hr. rewrite Hr. simpl.
      now apply add_zero_defined.
  - rewrite p4est_calloc_run. cbv zeta. eexists. split; [reflexivity|].
    simpl. repeat split.
    + intros Hs. apply Z.ltb_lt in Hs. rewrite Hs. now apply incr_defined.
    + intros Hz Hr. rewrite Hz. apply Z.eqb_neq in Hr. rewrite Hr. simpl.
      now apply incr_defined.
    + intros Hz Hr. rewrite Hz. apply Z.eqb_eq in Hr. rewrite Hr. simpl.
      now apply add_zero_defined.
Qed.

Lemma p4est_realloc_run (ptr size : Z) (w : world) :
  p4est_realloc ptr size w =
  let r := fst (realloc ptr size (heap w)) in
  let w1 := set_heap (snd (realloc ptr size (heap w))) w in
  Returned r
    (if ptr =? NULL then
       let k := if 0 <? size then 1 else if r =? NULL then 0 else 1 in
       set_malloc_count (int_wrap (malloc_count w + k)) w1
     else if size =? 0 then
       set_free_count (int_wrap (free_count w + (if r =? NULL then 1 else 0))) w1
     else w1).
Proof.
  unfold p4est_realloc, call_realloc. run_monad.
  destruct (realloc ptr size (heap w)) as [r h]. simpl.
  destruct (ptr =? NULL); [destruct (0 <? size); reflexivity|].
  destruct (size =? 0); reflexivity.
Qed.

(** C5.  With a null pointer p4est_realloc counts as p4est_malloc does for
    the same size: whenever the two delegates agree on returning null or
    not, both leave the same counters.  With a non-null pointer and size 0
    the free counter goes up by one if realloc returned null and stays
    otherwise; the allocation counter stays. *)
Theorem p4est_realloc_counts (w : world) (ptr size : Z) :
  (ptr = NULL ->
   (fst (malloc size (heap w)) = NULL <-> fst (realloc ptr size (heap w)) = NULL) ->
   exists wm wr,
     p4est_malloc size w = Returned (fst (malloc size (heap w))) wm /\
     p4est_realloc ptr size w = Returned (fst (realloc ptr size (heap w))) wr /\
     malloc_count wr = malloc_count wm /\
     free_count wr = free_count wm /\
     free_count wr = free_count w) /\
  (ptr <> NULL -> size = 0 -> INT_MIN <= free_count w < INT_MAX ->
   exists wr,
     p4est_realloc ptr size w = Returned (fst (realloc ptr size (heap w))) wr /\
     malloc_count wr = malloc_count w /\
     (fst (realloc ptr size (heap w)) = NULL -> free_count wr = free_count w + 1) /\
     (fst (realloc ptr size (heap w)) <> NULL -> free_count wr = free_count w)).
Proof.
  split.
  - intros -> Hnull.
    rewrite p4est_malloc_run, p4est_realloc_run. cbv zeta.
    do 2 eexists. split; [reflexivity|]. split; [reflexivity|].
    change (NULL =? NULL) with true. cbv iota. simpl.
    split; [|split; reflexivity].
    destruct (0 <? size); [reflexivity|].
    destruct (Z.eqb_spec (fst (malloc size (heap w))) NULL) as [Hm|Hm];
      destruct (Z.eqb_spec (fst (realloc NULL size (heap w))) NULL) as [Hr|Hr];
      try reflexivity; exfalso; destruct Hnull as [H1 H2]; auto.
  - intros Hp -> Hc.
    rewrite p4est_realloc_run. cbv zeta.
    apply Z.eqb_neq in Hp. rewrite Hp. change (0 =? 0) with true. cbv iota.
    eexists. split; [reflexivity|]. simpl. split; [reflexivity|]. split.
    + intros Hr. rewrite Hr. change (NULL =? NULL) with true. cbv iota.
      now apply incr_defined.
    + intros Hr. apply Z.eqb_neq in Hr. rewrite Hr.
      apply add_zero_defined. unfold in_int. lia.
Qed.

(** C10.  With a non-null pointer and a size above zero p4est_realloc
    changes neither counter, whatever realloc returns: only the heap
    changes, as realloc left it. *)
Theorem p4est_realloc_resize_frame (w : world) (ptr size : Z) :
  ptr <> NULL -> 0 < size ->
  p4est_realloc ptr size w =
    Returned (fst (realloc ptr size (heap w)))
             (set_heap (snd (realloc ptr size (heap w))) w) /\
  forall r wr, p4est_realloc ptr size w = Returned r wr ->
    malloc_count wr = malloc_count w /\ free_count wr = free_count w.
Proof.
  intros Hp Hs.
  assert (Hrun : p4est_realloc ptr size w =
                 Returned (fst (realloc ptr size (heap w)))
                          (set_heap (snd (realloc ptr size (heap w))) w)).
  { rewrite p4est_realloc_run. cbv zeta.
    apply Z.eqb_neq in Hp. rewrite Hp.
    assert (Hz : (size =? 0) = false) by (apply Z.eqb_neq; lia).
    now rewrite Hz. }
  split; [exact Hrun|].
  intros r wr Hr. rewrite Hrun in Hr. inversion Hr; subst. split; reflexivity.
Qed.

(** C6.  p4est_free on the null pointer changes nothing at all: no counter
    moves and free is not called.  On any other pointer the free counter
    goes up by exactly one, the allocation counter stays and the heap is
    the one free leaves. *)
Theorem p4est_free_counts (w : world) (ptr : Z) :
  (ptr = NULL -> p4est_free ptr w = Returned tt w) /\
  (ptr <> NULL -> INT_MIN <= free_count w < INT_MAX ->
   exists w',
     p4est_free ptr w = Returned tt w' /\
     free_count w' = free_count w + 1 /\
     malloc_count w' = malloc_count w /\
     heap w' = free ptr (heap w) /\
     trace w' = trace w).
Proof.
  split.
  - intros ->. reflexivity.
  - intros Hp Hc. unfold p4est_free, call_free. run_monad.
    apply Z.eqb_neq in Hp. rewrite Hp. simpl.
    eexists. split; [reflexivity|]. simpl.
    repeat split. now apply incr_defined.
Qed.

(** ** The abort path *)

Lemma emit_all_app (es1 es2 : list event) (w : world) :
  emit_all (es1 ++ es2) w = emit_all es2 (emit_all es1 w).
Proof. unfold emit_all. apply fold_left_app. Qed.

Lemma print_frames_run (prefix : string) (l : list string) (w : world) :
  print_frames prefix l w = Returned tt (emit_all (map (frame_line prefix) l) w).
Proof.
  revert w. induction l as [|s l IH]; intros w; [reflexivity|].
  simpl. unfold bind, fprintf, modify. now rewrite IH.
Qed.

(** p4est_abort never returns: every run ends in abort (), after the events
    of [abort_events] in that order. *)
Lemma emit_all_fields (es : list event) (w : world) :
  emit_all es w =
  mkWorld (malloc_count w) (free_count w) (p4est_base_identifier w)
    (p4est_abort_handler w) (p4est_abort_data w) (signals_caught w)
    (system_int_handler w) (system_segv_handler w) (system_usr2_handler w)
    (sig_table w) (heap w) (call_stack w) (trace w ++ es).
Proof.
  revert w. induction es as [|e es IH]; intros w.
  - simpl. rewrite app_nil_r. now destruct w.
  - change (emit_all (e :: es) w) with (emit_all es (emit e w)).
    rewrite IH. simpl. now rewrite <- app_assoc.
Qed.

Lemma p4est_abort_run (A : Type) (w : world) :
  @p4est_abort A w = Aborted (emit_all (abort_events w) w).
Proof.
  unfold p4est_abort, abort_events, backtrace_symbols, fprintf, fflush,
    abort, bind, gets, modify, ret.
  destruct P4EST_BACKTRACE.
  - rewrite print_frames_run, !emit_all_fields. simpl.
    destruct (negb (p4est_abort_handler w =? NULL));
      unfold emit; simpl; rewrite <- ?app_assoc; reflexivity.
  - rewrite !emit_all_fields. simpl.
    destruct (negb (p4est_abort_handler w =? NULL));
      unfold emit; simpl; rewrite <- ?app_assoc; reflexivity.
Qed.

Lemma abort_events_last (w : world) :
  exists es, abort_events w = es ++ [EvAbort].
Proof. unfold abort_events. eexists. rewrite !app_assoc. reflexivity. Qed.

Lemma P4EST_CHECK_ABORT_run (c : bool) (s : string) (w : world) :
  P4EST_CHECK_ABORT c s w =
  if c then Returned tt w
  else Aborted (emit_all (abort_events (emit (EvCheckFailed s) w))
                  (emit (EvCheckFailed s) w)).
Proof.
  unfold P4EST_CHECK_ABORT. destruct c; [reflexivity|].
  unfold bind, modify. now rewrite p4est_abort_run.
Qed.

(** C4.  p4est_memory_check returns, with the state untouched and nothing
    written, when the two counters are equal; it ends in the abort path, and
    so in abort (), when they differ; and those are the only two cases. *)
Theorem p4est_memory_check_balance (w : world) :
  (malloc_count w = free_count w -> p4est_memory_check w = Returned tt w) /\
  (malloc_count w <> free_count w ->
   p4est_memory_check w = p4est_abort (emit (EvCheckFailed "Memory balance") w) /\
   exists es,
     p4est_memory_check w = Aborted (emit_all (es ++ [EvAbort]) w)) /\
  ((exists w', p4est_memory_check w = Aborted w') <->
   malloc_count w <> free_count w).
Proof.
  assert (Heq : malloc_count w = free_count w ->
                p4est_memory_check w = Returned tt w).
  { intros H. unfold p4est_memory_check, bind, gets.
    rewrite P4EST_CHECK_ABORT_run.
    apply Z.eqb_eq in H. now rewrite H. }
  assert (Hne : malloc_count w <> free_count w ->
                p4est_memory_check w
                = p4est_abort (emit (EvCheckFailed "Memory balance") w)).
  { intros H. unfold p4est_memory_check, bind, gets, P4EST_CHECK_ABORT.
    apply Z.eqb_neq in H. now rewrite H. }
  split; [exact Heq|]. split.
  - intros H. split; [now apply Hne|].
    rewrite (Hne H), p4est_abort_run.
    destruct (abort_events_last (emit (EvCheckFailed "Memory balance") w))
      as [es Hes].
    exists (EvCheckFailed "Memory balance" :: es). now rewrite Hes.
  - split.
    + intros [w' Hw'] Heq'. rewrite (Heq Heq') in Hw'. discriminate.
    + intros H. rewrite (Hne H), p4est_abort_run. eexists. reflexivity.
Qed.

(** ** Installing and removing the signal handlers *)

(** C7.  A call with a non-null handler while the signals are already caught
    stores the new identifier, handler and data and does nothing else: the
    signal table, the three saved dispositions and the flag keep their
    values, as does the rest of the state. *)
Theorem p4est_set_abort_handler_rebind (w : world) (identifier handler data : Z) :
  handler <> NULL -> signals_caught w <> 0 ->
  exists w',
    p4est_set_abort_handler identifier handler data w = Returned tt w' /\
    p4est_base_identifier w' = identifier /\
    p4est_abort_handler w' = handler /\
    p4est_abort_data w' = data /\
    sig_table w' = sig_table w /\
    system_int_handler w' = system_int_handler w /\
    system_segv_handler w' = system_segv_handler w /\
    system_usr2_handler w' = system_usr2_handler w /\
    signals_caught w' = signals_caught w /\
    malloc_count w' = malloc_count w /\ free_count w' = free_count w /\
    heap w' = heap w /\ trace w' = trace w.
Proof.
  intros Hh Hc. exists (rebind identifier handler data w).
  split; [|repeat split].
  unfold p4est_set_abort_handler, bind, modify, gets, ret. simpl.
  apply Z.eqb_neq in Hh, Hc. rewrite Hh, Hc. reflexivity.
Qed.

Ltac sig_lookup :=
  repeat first [ rewrite lookup_insert_eq
               | rewrite lookup_insert_ne by congruence ].

(** C1.  From a state where the signals are not caught, a call with a
    non-null handler that returns has put the internal handler on INT, SEGV
    and USR2; a call with a null handler right after it returns too, and
    leaves the signal table exactly as it was before the first call, the
    flag cleared, the saved dispositions null and no handler stored. *)
Theorem p4est_set_abort_handler_roundtrip
    (w w1 : world) (identifier handler data : Z) :
  SIGINT <> SIGSEGV -> SIGINT <> SIGUSR2 -> SIGSEGV <> SIGUSR2 ->
  signals_caught w = 0 -> handler <> NULL ->
  p4est_set_abort_handler identifier handler data w = Returned tt w1 ->
  (signals_caught w1 = 1 /\
   sig_table w1 !! SIGINT = Some p4est_signal_handler_addr /\
   sig_table w1 !! SIGSEGV = Some p4est_signal_handler_addr /\
   sig_table w1 !! SIGUSR2 = Some p4est_signal_handler_addr /\
   sig_table w !! SIGINT = Some (system_int_handler w1) /\
   sig_table w !! SIGSEGV = Some (system_segv_handler w1) /\
   sig_table w !! SIGUSR2 = Some (system_usr2_handler w1)) /\
  exists w2,
    p4est_set_abort_handler identifier NULL data w1 = Returned tt w2 /\
    sig_table w2 = sig_table w /\
    signals_caught w2 = 0 /\
    system_int_handler w2 = NULL /\
    system_segv_handler w2 = NULL /\
    system_usr2_handler w2 = NULL /\
    p4est_abort_handler w2 = NULL /\
    malloc_count w2 = malloc_count w /\ free_count w2 = free_count w /\
    heap w2 = heap w /\ trace w2 = trace w.
Proof.
  intros Hd1 Hd2 Hd3 Hc Hh Hrun.
  unfold p4est_set_abort_handler, bind, modify, gets, signal in Hrun.
  simpl in Hrun.
  apply Z.eqb_neq in Hh. rewrite Hh, Hc in Hrun. simpl in Hrun.
  (* catching INT *)
  destruct (sig_table w !! SIGINT) as [oi|] eqn:Ei;
    rewrite P4EST_CHECK_ABORT_run in Hrun;
    [|rewrite Z.eqb_refl in Hrun; discriminate].
  destruct (oi =? SIG_ERR); [discriminate|]. simpl in Hrun.
  (* catching SEGV *)
  rewrite lookup_insert_ne in Hrun by congruence.
  destruct (sig_table w !! SIGSEGV) as [os|] eqn:Es;
    rewrite P4EST_CHECK_ABORT_run in Hrun;
    [|rewrite Z.eqb_refl in Hrun; discriminate].
  destruct (os =? SIG_ERR); [discriminate|]. simpl in Hrun.
  (* catching USR2 *)
  rewrite !lookup_insert_ne in Hrun by congruence.
  destruct (sig_table w !! SIGUSR2) as [ou|] eqn:Eu;
    rewrite P4EST_CHECK_ABORT_run in Hrun;
    [|rewrite Z.eqb_refl in Hrun; discriminate].
  destruct (ou =? SIG_ERR); [discriminate|]. simpl in Hrun.
  inversion Hrun as [Hw1]. clear Hrun. split.
  - simpl. repeat split; now sig_lookup.
  - unfold p4est_set_abort_handler, bind, modify, gets, signal, ret. simpl.
    sig_lookup. simpl. sig_lookup. simpl. sig_lookup.
    eexists. split; [reflexivity|]. simpl.
    split; [|repeat split].
    apply map_eq. intros k.
    destruct (decide (k = SIGUSR2)) as [->|Hk3]; [now sig_lookup|].
    destruct (decide (k = SIGSEGV)) as [->|Hk2]; [now sig_lookup|].
    destruct (decide (k = SIGINT)) as [->|Hk1]; [now sig_lookup|].
    now sig_lookup.
Qed.

(** ** Strings *)

Lemma append_cons (a : ascii) (s t : string) :
  (String a s ++ t)%string = String a (s ++ t).
Proof. reflexivity. Qed.

Lemma append_assoc (s1 s2 s3 : string) :
  ((s1 ++ s2) ++ s3 = s1 ++ (s2 ++ s3))%string.
Proof.
  induction s1 as [|a s1 IH]; [reflexivity|].
  now rewrite !append_cons, IH.
Qed.

Lemma append_nil_r (s : string) : (s ++ "")%string = s.
Proof.
  induction s as [|a s IH]; [reflexivity|]. now rewrite append_cons, IH.
Qed.

Lemma length_append (s1 s2 : string) :
  String.length (s1 ++ s2) = (String.length s1 + String.length s2)%nat.
Proof.
  induction s1 as [|a s1 IH]; [reflexivity|].
  rewrite append_cons. simpl. now rewrite IH.
Qed.

Lemma substring_whole (n : nat) (s : string) :
  (String.length s <= n)%nat -> substring 0 n s = s.
Proof.
  revert n. induction s as [|a s IH]; intros n Hn.
  - now destruct n.
  - destruct n as [|n]; simpl in *; [lia|]. rewrite IH; [reflexivity|lia].
Qed.

Lemma nb_digits_double (d : Decimal.uint) :
  (Decimal.nb_digits (Decimal.Little.double d) <= S (Decimal.nb_digits d) /\
   Decimal.nb_digits (Decimal.Little.succ_double d) <= S (Decimal.nb_digits d))%nat.
Proof. induction d; simpl; lia. Qed.

Lemma to_little_uint_digits (p : positive) :
  forall n : nat, Z.pos p < 2 ^ Z.of_nat n ->
  (Decimal.nb_digits (Pos.to_little_uint p) <= n)%nat.
Proof.
  induction p as [p IH|p IH|]; intros n Hn.
  - destruct n as [|n]; [simpl in Hn; lia|].
    rewrite Nat2Z.inj_succ, Z.pow_succ_r in Hn by lia.
    specialize (IH n ltac:(lia)). simpl.
    pose proof (nb_digits_double (Pos.to_little_uint p)). lia.
  - destruct n as [|n]; [simpl in Hn; lia|].
    rewrite Nat2Z.inj_succ, Z.pow_succ_r in Hn by lia.
    specialize (IH n ltac:(lia)). simpl.
    pose proof (nb_digits_double (Pos.to_little_uint p)). lia.
  - destruct n as [|n]; [simpl in Hn; lia|]. simpl. lia.
Qed.

Lemma string_of_uint_length (d : Decimal.uint) :
  String.length (NilEmpty.string_of_uint d) = Decimal.nb_digits d.
Proof. induction d; simpl; congruence. Qed.

(** A non-negative [int] prints in at most 31 characters (10, in fact; the
    coarse bound is all the buffer needs). *)
Lemma printf_d_length (z : Z) :
  0 <= z <= INT_MAX -> (String.length (printf_d z) <= 31)%nat.
Proof.
  intros [Hlo Hhi]. unfold printf_d. destruct z as [|p|p]; [simpl; lia| |lia].
  assert (Hd : (Decimal.nb_digits (Pos.to_uint p) <= 31)%nat).
  { unfold Pos.to_uint. rewrite DecimalFacts.nb_digits_rev.
    apply to_little_uint_digits. unfold INT_MAX in Hhi.
    change (2 ^ Z.of_nat 31) with (2 ^ 31). lia. }
  simpl. unfold NilZero.string_of_uint.
  destruct (Pos.to_uint p) eqn:E; try (rewrite string_of_uint_length; exact Hd).
  simpl. lia.
Qed.

(** The buffer of BUFSIZ characters never cuts the prefix short. *)
Lemma abort_prefix_exact (identifier : Z) :
  256 <= BUFSIZ -> 0 <= identifier <= INT_MAX ->
  abort_prefix identifier = ("[" ++ printf_d identifier ++ "] ")%string.
Proof.
  intros HB Hid. unfold abort_prefix, snprintf.
  replace (0 <=? identifier) with true by (symmetry; apply Z.leb_le; lia).
  apply substring_whole.
  pose proof (printf_d_length identifier Hid) as Hlen.
  rewrite !length_append. simpl. lia.
Qed.

Lemma abort_prefix_unset (identifier : Z) :
  identifier < 0 -> abort_prefix identifier = EmptyString.
Proof.
  intros Hid. unfold abort_prefix.
  now replace (0 <=? identifier) with false by (symmetry; apply Z.leb_gt; lia).
Qed.

Lemma strrchr_none (s : string) (c : ascii) :
  strrchr s c = None -> lacks c s = true.
Proof.
  induction s as [|a s IH]; simpl; [reflexivity|].
  destruct (strrchr s c); [discriminate|].
  destruct (Ascii.eqb a c); [discriminate|]. intros _. now rewrite IH.
Qed.

Lemma strrchr_some (s : string) (c : ascii) (r : string) :
  strrchr s c = Some r ->
  exists dir t, s = (dir ++ r)%string /\ r = String c t /\ lacks c t = true.
Proof.
  revert r. induction s as [|a s IH]; simpl; intros r Hr; [discriminate|].
  destruct (strrchr s c) as [r'|] eqn:E.
  - inversion Hr; subst r'. destruct (IH r eq_refl) as (dir & t & Hs & Ht & Hl).
    exists (String a dir), t. rewrite append_cons, <- Hs. now repeat split.
  - destruct (Ascii.eqb_spec a c) as [->|]; [|discriminate].
    inversion Hr; subst r. exists EmptyString, s. repeat split.
    now apply strrchr_none.
Qed.

(** What a backtrace line shows of a symbol string is its basename. *)
Lemma frame_name_basename (s : string) : is_basename_of (frame_name s) s.
Proof.
  unfold frame_name, is_basename_of.
  destruct (strrchr s "/") as [r|] eqn:E.
  - destruct (strrchr_some _ _ _ E) as (dir & t & Hs & Hr & Hl).
    subst r. simpl. split; [exact Hl|]. right. exists dir. exact Hs.
  - split; [now apply strrchr_none|]. now left.
Qed.

(** ** The text of the abort report *)

Lemma written_app (f : stream) (t1 t2 : list event) :
  written f (t1 ++ t2) = (written f t1 ++ written f t2)%string.
Proof.
  induction t1 as [|e t1 IH]; [reflexivity|].
  rewrite <- app_comm_cons. destruct e; simpl; try exact IH.
  destruct (stream_eqb f f0); [|exact IH].
  now rewrite IH, append_assoc.
Qed.

Lemma written_frame_lines (prefix : string) (l : list string) :
  written Stderr (map (frame_line prefix) l)
  = concat_lines
      (map (fun b => (prefix ++ "   " ++ b ++ newline)%string) (map frame_name l)).
Proof.
  induction l as [|s l IH]; [reflexivity|]. simpl. now rewrite IH.
Qed.

Lemma frame_names_basenames (l : list string) :
  Forall2 is_basename_of (map frame_name l) l.
Proof.
  induction l as [|s l IH]; constructor; [apply frame_name_basename|exact IH].
Qed.

(** With the backtrace compiled in, the text p4est_abort adds to stderr. *)
Lemma p4est_abort_text (A : Type) (w : world) :
  P4EST_BACKTRACE = true ->
  exists w',
    @p4est_abort A w = Aborted w' /\
    written Stderr (trace w')
    = (written Stderr (trace w)
       ++ report_text (abort_prefix (p4est_base_identifier w))
            (map frame_name (firstn 64 (call_stack w))))%string.
Proof.
  intros HB. rewrite p4est_abort_run. eexists. split; [reflexivity|].
  rewrite emit_all_fields. simpl. rewrite written_app. f_equal.
  unfold abort_events. rewrite HB.
  rewrite written_app.
  change (written Stderr (EvWrite Stderr ?h :: ?t))
    with (h ++ written Stderr t)%string.
  rewrite written_frame_lines.
  unfold report_text. rewrite length_map.
  replace (written Stderr
             ([EvFlush Stdout; EvFlush Stderr]
              ++ (if negb (p4est_abort_handler w =? NULL)
                  then [EvCall (p4est_abort_handler w) (p4est_abort_data w)]
                  else [])
              ++ [EvAbort]))
    with EmptyString
    by (now destruct (negb (p4est_abort_handler w =? NULL))).
  apply append_nil_r.
Qed.

(** C8.  With the backtrace compiled in, p4est_abort ends in abort () after
    adding to stderr exactly: the line "Abort: Obtained <count> stack
    frames", then for each captured frame (at most 64, innermost first) a
    line of three spaces and the frame's basename, every line behind the
    prefix "[N] " when the identifier N is set (not negative) and behind
    nothing when it is not. *)
Theorem p4est_abort_report (w : world) :
  P4EST_BACKTRACE = true -> 256 <= BUFSIZ -> in_int (p4est_base_identifier w) ->
  exists w' names,
    @p4est_abort unit w = Aborted w' /\
    Forall2 is_basename_of names (firstn 64 (call_stack w)) /\
    (0 <= p4est_base_identifier w ->
     written Stderr (trace w')
     = (written Stderr (trace w)
        ++ report_text ("[" ++ printf_d (p4est_base_identifier w) ++ "] ") names)%string) /\
    (p4est_base_identifier w < 0 ->
     written Stderr (trace w')
     = (written Stderr (trace w) ++ report_text "" names)%string).
Proof.
  intros HB Hbuf [Hlo Hhi].
  destruct (p4est_abort_text unit w HB) as (w' & Hrun & Htext).
  exists w', (map frame_name (firstn 64 (call_stack w))).
  split; [exact Hrun|]. split; [apply frame_names_basenames|]. split.
  - intros Hset. rewrite Htext, abort_prefix_exact; [reflexivity|exact Hbuf|lia].
  - intros Hunset. now rewrite Htext, abort_prefix_unset.
Qed.

(** ** More on the handlers *)

(** The installing call returns whenever the platform lets the three
    dispositions be set, and it hands back none of them as SIG_ERR. *)
Lemma p4est_set_abort_handler_installs
    (w : world) (identifier handler data oi os ou : Z) :
  SIGINT <> SIGSEGV -> SIGINT <> SIGUSR2 -> SIGSEGV <> SIGUSR2 ->
  signals_caught w = 0 -> handler <> NULL ->
  sig_table w !! SIGINT = Some oi -> oi <> SIG_ERR ->
  sig_table w !! SIGSEGV = Some os -> os <> SIG_ERR ->
  sig_table w !! SIGUSR2 = Some ou -> ou <> SIG_ERR ->
  exists w1,
    p4est_set_abort_handler identifier handler data w = Returned tt w1 /\
    system_int_handler w1 = oi /\ system_segv_handler w1 = os /\
    system_usr2_handler w1 = ou.
Proof.
  intros Hd1 Hd2 Hd3 Hc Hh Ei Hi Es Hs Eu Hu.
  unfold p4est_set_abort_handler, bind, modify, gets, signal. simpl.
  apply Z.eqb_neq in Hh, Hi, Hs, Hu. rewrite Hh, Hc. simpl.
  rewrite Ei, P4EST_CHECK_ABORT_run, Hi. simpl.
  sig_lookup. rewrite Es, P4EST_CHECK_ABORT_run, Hs. simpl.
  sig_lookup. rewrite Eu, P4EST_CHECK_ABORT_run, Hu. simpl.
  eexists. split; [reflexivity|]. now repeat split.
Qed.

(** A refusal of the first signal call is fatal. *)
Lemma p4est_set_abort_handler_refused
    (w : world) (identifier handler data : Z) :
  signals_caught w = 0 -> handler <> NULL ->
  sig_table w !! SIGINT = None ->
  exists w', p4est_set_abort_handler identifier handler data w = Aborted w'.
Proof.
  intros Hc Hh Ei.
  unfold p4est_set_abort_handler, bind, modify, gets, signal. simpl.
  apply Z.eqb_neq in Hh. rewrite Hh, Hc. simpl.
  rewrite Ei, P4EST_CHECK_ABORT_run, Z.eqb_refl. simpl.
  eexists. reflexivity.
Qed.

(** The signal handler names the signal and then aborts. *)
Lemma p4est_signal_handler_run (sig : Z) (w : world) :
  exists line w',
    p4est_signal_handler sig w
    = p4est_abort (emit (EvWrite Stderr line) w) /\
    p4est_signal_handler sig w = Aborted w'.
Proof.
  unfold p4est_signal_handler, bind, gets, fprintf, modify.
  do 2 eexists. split; [reflexivity|]. now rewrite p4est_abort_run.
Qed.

(** ** How the allocation calls compose *)

Lemma p4est_free_run (ptr : Z) (w : world) :
  p4est_free ptr w =
  Returned tt
    (if ptr =? NULL then w
     else set_heap (free ptr (heap w))
            (set_free_count (int_wrap (free_count w + 1)) w)).
Proof.
  unfold p4est_free, call_free. run_monad.
  destruct (ptr =? NULL); reflexivity.
Qed.

Lemma int_wrap_succ_eq (c d : Z) : c = d -> int_wrap (c + 1) = int_wrap (d + 1).
Proof. now intros ->. Qed.

Lemma int_wrap_succ_neq (c : Z) : in_int c -> int_wrap (c + 1) <> c.
Proof.
  unfold in_int, INT_MIN, INT_MAX, int_wrap. intros Hc.
  destruct (Z.eq_dec c (2 ^ 31 - 1)) as [->|Hne].
  - vm_compute. discriminate.
  - rewrite Z.mod_small by lia. lia.
Qed.

(** The counters after one allocation and the release of its result. *)
Lemma malloc_free_counts (size : Z) (w : world) :
  exists w1 w2,
    p4est_malloc size w = Returned (fst (malloc size (heap w))) w1 /\
    p4est_free (fst (malloc size (heap w))) w1 = Returned tt w2 /\
    malloc_count w2
    = int_wrap (malloc_count w
                + (if 0 <? size then 1
                   else if fst (malloc size (heap w)) =? NULL then 0 else 1)) /\
    free_count w2
    = (if fst (malloc size (heap w)) =? NULL then free_count w
       else int_wrap (free_count w + 1)) /\
    same_fault_state w w2.
Proof.
  rewrite p4est_malloc_run. cbv zeta. eexists. eexists.
  split; [reflexivity|]. rewrite p4est_free_run. split; [reflexivity|].
  destruct (fst (malloc size (heap w)) =? NULL); simpl;
    repeat split; reflexivity.
Qed.

(** X1.  From a balanced state, one p4est_malloc followed by p4est_free of
    what it returned is balanced again in every case but one: a request
    of size above zero that malloc answered with the null pointer, which was
    counted as an allocation and is never counted as a free. *)
Theorem malloc_free_pair_balance (w : world) (size : Z) :
  in_int (malloc_count w) -> balanced w ->
  exists r w1 w2,
    p4est_malloc size w = Returned r w1 /\
    p4est_free r w1 = Returned tt w2 /\
    (balanced w2 <-> ~ (0 < size /\ r = NULL)).
Proof.
  intros Hin Hbal. unfold balanced in *.
  destruct (malloc_free_counts size w) as (w1 & w2 & Hm & Hf & Hmc & Hfc & _).
  exists (fst (malloc size (heap w))), w1, w2.
  split; [exact Hm|]. split; [exact Hf|].
  rewrite Hmc, Hfc.
  destruct (Z.eqb_spec (fst (malloc size (heap w))) NULL) as [Hr|Hr];
    destruct (Z.ltb_spec 0 size) as [Hs|Hs].
  - split.
    + intros Heq _. apply (int_wrap_succ_neq (malloc_count w) Hin).
      now rewrite Heq.
    + intros Hn. exfalso. apply Hn. now split.
  - split; [intros _ [Hs' _]; lia|].
    intros _. rewrite Z.add_0_r, int_wrap_id by exact Hin. exact Hbal.
  - split; [intros _ [_ Hr']; contradiction|].
    intros _. now apply int_wrap_succ_eq.
  - split; [intros _ [_ Hr']; contradiction|].
    intros _. now apply int_wrap_succ_eq.
Qed.

Lemma malloc_free_pair_keeps_balance (w : world) (size : Z) :
  (0 < size -> fst (malloc size (heap w)) <> NULL) ->
  in_int (malloc_count w) -> balanced w ->
  exists w1 w2,
    p4est_malloc size w = Returned (fst (malloc size (heap w))) w1 /\
    p4est_free (fst (malloc size (heap w))) w1 = Returned tt w2 /\
    in_int (malloc_count w2) /\ balanced w2.
Proof.
  intros Hok Hin Hbal. unfold balanced in *.
  destruct (malloc_free_counts size w) as (w1 & w2 & Hm & Hf & Hmc & Hfc & _).
  exists w1, w2. split; [exact Hm|]. split; [exact Hf|].
  split; [rewrite Hmc; apply int_wrap_range|].
  rewrite Hmc, Hfc.
  destruct (Z.eqb_spec (fst (malloc size (heap w))) NULL) as [Hr|Hr];
    destruct (Z.ltb_spec 0 size) as [Hs|Hs].
  - exfalso. now apply Hok.
  - rewrite Z.add_0_r, int_wrap_id by exact Hin. exact Hbal.
  - now apply int_wrap_succ_eq.
  - now apply int_wrap_succ_eq.
Qed.

(** X2.  On a platform whose malloc never fails for a size above zero, any
    number of allocate-then-release pairs started from a balanced state ends
    balanced, and p4est_memory_check then returns without a trace. *)
Theorem malloc_free_pairs_balanced (sizes : list Z) (w : world) :
  (forall size h, 0 < size -> fst (malloc size h) <> NULL) ->
  in_int (malloc_count w) -> balanced w ->
  exists w',
    malloc_free_pairs sizes w = Returned tt w' /\
    balanced w' /\
    trace w' = trace w /\
    p4est_memory_check w' = Returned tt w'.
Proof.
  intros Hok. revert w. induction sizes as [|size rest IH]; intros w Hin Hbal.
  - exists w. split; [reflexivity|]. split; [exact Hbal|]. split; [reflexivity|].
    unfold p4est_memory_check, bind, gets. rewrite P4EST_CHECK_ABORT_run.
    unfold balanced in Hbal. apply Z.eqb_eq in Hbal. now rewrite Hbal.
  - destruct (malloc_free_counts size w)
      as (w1 & w2 & Hm & Hf & _ & _ & Hsame).
    destruct (malloc_free_pair_keeps_balance w size (Hok size (heap w)) Hin Hbal)
      as (w1' & w2' & Hm' & Hf' & Hin2 & Hbal2).
    rewrite Hm in Hm'. inversion Hm'; subst w1'.
    rewrite Hf in Hf'. inversion Hf'; subst w2'.
    destruct (IH w2 Hin2 Hbal2) as (w' & Hrun & Hb & Ht & Hc).
    exists w'. split.
    + simpl. unfold bind at 1. rewrite Hm. unfold bind at 1. rewrite Hf.
      exact Hrun.
    + split; [exact Hb|]. split; [|exact Hc].
      rewrite Ht. apply Hsame.
Qed.

(** X3.  Shrinking a block to size zero and then releasing whatever
    p4est_realloc returned counts exactly one free, whichever way the
    platform's realloc answers: a null result is counted by p4est_realloc
    and ignored by p4est_free, a non-null result is counted by p4est_free
    alone.  The allocation counter does not move. *)
Theorem realloc_zero_then_free (w : world) (ptr : Z) :
  ptr <> NULL -> INT_MIN <= free_count w < INT_MAX ->
  exists r w1 w2,
    p4est_realloc ptr 0 w = Returned r w1 /\
    p4est_free r w1 = Returned tt w2 /\
    free_count w2 = free_count w + 1 /\
    malloc_count w2 = malloc_count w.
Proof.
  intros Hp Hc.
  rewrite p4est_realloc_run. cbv zeta.
  apply Z.eqb_neq in Hp. rewrite Hp. change (0 =? 0) with true. cbv iota.
  do 3 eexists. split; [reflexivity|]. rewrite p4est_free_run.
  split; [reflexivity|].
  destruct (fst (realloc ptr 0 (heap w)) =? NULL); simpl.
  - split; [now apply incr_defined|reflexivity].
  - rewrite Z.add_0_r, (int_wrap_id (free_count w)) by (unfold in_int; lia).
    split; [now apply incr_defined|reflexivity].
Qed.

(** X4.  The four allocation calls always return, and none of them writes
    anything, touches the signal table or changes the registered identifier,
    handler, data, flag or saved dispositions. *)
Theorem allocation_calls_frame (w : world) (ptr nmemb size : Z) :
  (exists r w', p4est_malloc size w = Returned r w' /\ same_fault_state w w') /\
  (exists r w', p4est_calloc nmemb size w = Returned r w' /\ same_fault_state w w') /\
  (exists r w', p4est_realloc ptr size w = Returned r w' /\ same_fault_state w w') /\
  (exists w', p4est_free ptr w = Returned tt w' /\ same_fault_state w w').
Proof.
  split; [|split; [|split]].
  - rewrite p4est_malloc_run. cbv zeta. do 2 eexists.
    split; [reflexivity|]. repeat split.
  - rewrite p4est_calloc_run. cbv zeta. do 2 eexists.
    split; [reflexivity|]. repeat split.
  - rewrite p4est_realloc_run. cbv zeta. do 2 eexists.
    split; [reflexivity|].
    destruct (ptr =? NULL); [|destruct (size =? 0)]; repeat split.
  - rewrite p4est_free_run. eexists. split; [reflexivity|].
    destruct (ptr =? NULL); repeat split.
Qed.

(** X5.  From a balanced state one call without its partner is caught
    by the check: after a lone p4est_malloc of size above zero, and after a
    lone p4est_free of a non-null pointer, p4est_memory_check ends in
    abort (). *)
Theorem unmatched_call_detected (w : world) (size ptr : Z) :
  in_int (malloc_count w) -> balanced w ->
  (0 < size ->
   exists r w1 w',
     p4est_malloc size w = Returned r w1 /\
     p4est_memory_check w1 = Aborted w') /\
  (ptr <> NULL ->
   exists w1 w',
     p4est_free ptr w = Returned tt w1 /\
     p4est_memory_check w1 = Aborted w').
Proof.
  intros Hin Hbal. unfold balanced in Hbal.
  assert (Hcheck : forall w1, malloc_count w1 <> free_count w1 ->
                              exists w', p4est_memory_check w1 = Aborted w').
  { intros w1 Hne. unfold p4est_memory_check, bind, gets.
    rewrite P4EST_CHECK_ABORT_run. apply Z.eqb_neq in Hne. rewrite Hne.
    eexists. reflexivity. }
  split.
  - intros Hs. rewrite p4est_malloc_run. cbv zeta.
    apply Z.ltb_lt in Hs. rewrite Hs.
    destruct (Hcheck (set_malloc_count (int_wrap (malloc_count w + 1))
                        (set_heap (snd (malloc size (heap w))) w))) as [w' Hw'].
    + simpl. rewrite <- Hbal. now apply int_wrap_succ_neq.
    + do 3 eexists. split; [reflexivity|exact Hw'].
  - intros Hp. rewrite p4est_free_run.
    apply Z.eqb_neq in Hp. rewrite Hp.
    destruct (Hcheck (set_heap (free ptr (heap w))
                        (set_free_count (int_wrap (free_count w + 1)) w)))
      as [w' Hw'].
    + simpl. intros Heq. rewrite Hbal in Hin.
      apply (int_wrap_succ_neq (free_count w) Hin). now rewrite <- Heq.
    + do 2 eexists. split; [reflexivity|exact Hw'].
Qed.

(** ** The order of effects in an abort *)



(** X7.  Built without the backtrace, p4est_abort writes nothing at all:
    the two flushes, the call of the handler if one is registered, and
    abort () are its only effects. *)
Theorem p4est_abort_silent (w : world) :
  P4EST_BACKTRACE = false ->
  exists w',
    @p4est_abort unit w = Aborted w' /\
    trace w'
    = trace w ++ [EvFlush Stdout; EvFlush Stderr]
        ++ (if p4est_abort_handler w =? NULL then []
            else [EvCall (p4est_abort_handler w) (p4est_abort_data w)])
        ++ [EvAbort] /\
    written Stderr (trace w') = written Stderr (trace w) /\
    written Stdout (trace w') = written Stdout (trace w).
Proof.
  intros HB. eexists. rewrite p4est_abort_run. split; [reflexivity|].
  rewrite emit_all_fields. simpl. unfold abort_events. rewrite HB. simpl.
  rewrite !written_app.
  destruct (p4est_abort_handler w =? NULL); simpl; now rewrite !append_nil_r.
Qed.

(** X8.  However deep the call stack is, the backtrace shows at most 64
    frames: the count in the header is the smaller of 64 and the depth, and
    what follows the header is exactly one line for each of the innermost
    that many frames, in order, and nothing for the frames beyond. *)
Theorem p4est_abort_frame_cap (w : world) :
  P4EST_BACKTRACE = true ->
  exists w',
    @p4est_abort unit w = Aborted w' /\
    length (firstn 64 (call_stack w)) = Nat.min 64 (length (call_stack w)) /\
    (length (firstn 64 (call_stack w)) <= 64)%nat /\
    written Stderr (trace w')
    = (written Stderr (trace w)
       ++ (abort_prefix (p4est_base_identifier w) ++ "Abort: Obtained "
           ++ printf_d (Z.of_nat (Nat.min 64 (length (call_stack w))))
           ++ " stack frames" ++ newline)
       ++ concat_lines
            (map (fun s => abort_prefix (p4est_base_identifier w)
                           ++ "   " ++ frame_name s ++ newline)
                 (firstn 64 (call_stack w))))%string.
Proof.
  intros HB.
  destruct (p4est_abort_text unit w HB) as (w' & Hrun & Htext).
  exists w'. split; [exact Hrun|].
  split; [apply length_firstn|].
  split; [rewrite length_firstn; apply Nat.le_min_l|].
  rewrite Htext. unfold report_text.
  now rewrite length_map, length_firstn, map_map.
Qed.

(** X9.  The signal handler writes exactly one line to stderr, the
    prefix and "Abort: Signal " with INT, SEGV or USR2 for the three caught
    signals and <unknown> for any other number, and from the state so
    reached does exactly what p4est_abort does. *)
Theorem p4est_signal_handler_report (sig : Z) (w : world) :
  SIGINT <> SIGSEGV -> SIGINT <> SIGUSR2 -> SIGSEGV <> SIGUSR2 ->
  exists name,
    (sig = SIGINT -> name = "INT"%string) /\
    (sig = SIGSEGV -> name = "SEGV"%string) /\
    (sig = SIGUSR2 -> name = "USR2"%string) /\
    (sig <> SIGINT -> sig <> SIGSEGV -> sig <> SIGUSR2 ->
       name = "<unknown>"%string) /\
    p4est_signal_handler sig w
    = @p4est_abort unit
        (emit (EvWrite Stderr
                 (abort_prefix (p4est_base_identifier w) ++ "Abort: Signal "
                  ++ name ++ newline)%string) w).
Proof.
  intros Hd1 Hd2 Hd3.
  exists (if sig =? SIGINT then "INT"%string
          else if sig =? SIGSEGV then "SEGV"%string
          else if sig =? SIGUSR2 then "USR2"%string
          else "<unknown>"%string).
  split; [|split; [|split; [|split]]].
  - intros ->. now rewrite Z.eqb_refl.
  - intros ->.
    replace (SIGSEGV =? SIGINT) with false
      by (symmetry; apply Z.eqb_neq; congruence).
    now rewrite Z.eqb_refl.
  - intros ->.
    replace (SIGUSR2 =? SIGINT) with false
      by (symmetry; apply Z.eqb_neq; congruence).
    replace (SIGUSR2 =? SIGSEGV) with false
      by (symmetry; apply Z.eqb_neq; congruence).
    now rewrite Z.eqb_refl.
  - intros H1 H2 H3.
    apply Z.eqb_neq in H1, H2, H3. now rewrite H1, H2, H3.
  - reflexivity.
Qed.

(** ** Installing, rebinding and removing, step by step *)

(** The state a successful installing call leaves. *)
Lemma install_fresh_run (w : world) (identifier handler data oi os ou : Z) :
  SIGINT <> SIGSEGV -> SIGINT <> SIGUSR2 -> SIGSEGV <> SIGUSR2 ->
  signals_caught w = 0 -> handler <> NULL ->
  sig_table w !! SIGINT = Some oi -> oi <> SIG_ERR ->
  sig_table w !! SIGSEGV = Some os -> os <> SIG_ERR ->
  sig_table w !! SIGUSR2 = Some ou -> ou <> SIG_ERR ->
  p4est_set_abort_handler identifier handler data w
  = Returned tt
      (mkWorld (malloc_count w) (free_count w) identifier handler data 1
         oi os ou
         (<[SIGUSR2 := p4est_signal_handler_addr]>
            (<[SIGSEGV := p4est_signal_handler_addr]>
               (<[SIGINT := p4est_signal_handler_addr]> (sig_table w))))
         (heap w) (call_stack w) (trace w)).
Proof.
  intros Hd1 Hd2 Hd3 Hc Hh Ei Hi Es Hs Eu Hu.
  unfold p4est_set_abort_handler, bind, modify, gets, signal. simpl.
  apply Z.eqb_neq in Hh, Hi, Hs, Hu. rewrite Hh, Hc. simpl.
  rewrite Ei, P4EST_CHECK_ABORT_run, Hi. simpl.
  sig_lookup. rewrite Es, P4EST_CHECK_ABORT_run, Hs. simpl.
  sig_lookup. rewrite Eu, P4EST_CHECK_ABORT_run, Hu. simpl.
  reflexivity.
Qed.

(** An installing call that returns found all three signals settable. *)
Lemma install_returns_inv (w w1 : world) (identifier handler data : Z) :
  SIGINT <> SIGSEGV -> SIGINT <> SIGUSR2 -> SIGSEGV <> SIGUSR2 ->
  signals_caught w = 0 -> handler <> NULL ->
  p4est_set_abort_handler identifier handler data w = Returned tt w1 ->
  exists oi os ou,
    sig_table w !! SIGINT = Some oi /\ oi <> SIG_ERR /\
    sig_table w !! SIGSEGV = Some os /\ os <> SIG_ERR /\
    sig_table w !! SIGUSR2 = Some ou /\ ou <> SIG_ERR.
Proof.
  intros Hd1 Hd2 Hd3 Hc Hh Hrun.
  unfold p4est_set_abort_handler, bind, modify, gets, signal in Hrun.
  simpl in Hrun.
  apply Z.eqb_neq in Hh. rewrite Hh, Hc in Hrun. simpl in Hrun.
  destruct (sig_table w !! SIGINT) as [oi|] eqn:Ei;
    rewrite P4EST_CHECK_ABORT_run in Hrun;
    [|rewrite Z.eqb_refl in Hrun; discriminate].
  destruct (Z.eqb_spec oi SIG_ERR) as [|Hi]; [discriminate|]. simpl in Hrun.
  rewrite lookup_insert_ne in Hrun by congruence.
  destruct (sig_table w !! SIGSEGV) as [os|] eqn:Es;
    rewrite P4EST_CHECK_ABORT_run in Hrun;
    [|rewrite Z.eqb_refl in Hrun; discriminate].
  destruct (Z.eqb_spec os SIG_ERR) as [|Hs]; [discriminate|]. simpl in Hrun.
  rewrite !lookup_insert_ne in Hrun by congruence.
  destruct (sig_table w !! SIGUSR2) as [ou|] eqn:Eu;
    rewrite P4EST_CHECK_ABORT_run in Hrun;
    [|rewrite Z.eqb_refl in Hrun; discriminate].
  destruct (Z.eqb_spec ou SIG_ERR) as [|Hu]; [discriminate|].
  exists oi, os, ou. now repeat split.
Qed.

(** The state a removing call leaves when the signals are caught: each
    signal call puts the saved disposition back where the table has the
    signal. *)
Lemma uninstall_run (w : world) (identifier data : Z) :
  signals_caught w <> 0 ->
  p4est_set_abort_handler identifier NULL data w
  = Returned tt
      (mkWorld (malloc_count w) (free_count w) identifier NULL data 0
         NULL NULL NULL
         (signal_table SIGUSR2 (system_usr2_handler w)
            (signal_table SIGSEGV (system_segv_handler w)
               (signal_table SIGINT (system_int_handler w) (sig_table w))))
         (heap w) (call_stack w) (trace w)).
Proof.
  intros Hc.
  unfold p4est_set_abort_handler, bind, modify, gets, signal. simpl.
  apply Z.eqb_neq in Hc. rewrite Hc. simpl.
  unfold signal_table at 3.
  destruct (sig_table w !! SIGINT); simpl;
    (unfold signal_table at 2;
     match goal with
     | |- context [match ?t !! SIGSEGV with _ => _ end] =>
         destruct (t !! SIGSEGV); simpl
     end;
     unfold signal_table;
     match goal with
     | |- context [match ?t !! SIGUSR2 with _ => _ end] =>
         destruct (t !! SIGUSR2); simpl
     end; reflexivity).
Qed.

(** The state any other call leaves: only the registration changes. *)
Lemma rebind_run (w : world) (identifier handler data : Z) :
  (handler <> NULL /\ signals_caught w <> 0) \/
  (handler = NULL /\ signals_caught w = 0) ->
  p4est_set_abort_handler identifier handler data w
  = Returned tt (rebind identifier handler data w).
Proof.
  intros [[Hh Hc]|[Hh Hc]];
    unfold p4est_set_abort_handler, bind, modify, gets, ret; simpl.
  - apply Z.eqb_neq in Hh, Hc. now rewrite Hh, Hc.
  - subst handler. now rewrite Hc.
Qed.

(** Putting the saved dispositions back over the internal handler gives
    the table there was before the handler went in. *)
Lemma restore_table (t : gmap Z Z) (a oi os ou : Z) :
  SIGINT <> SIGSEGV -> SIGINT <> SIGUSR2 -> SIGSEGV <> SIGUSR2 ->
  t !! SIGINT = Some oi -> t !! SIGSEGV = Some os -> t !! SIGUSR2 = Some ou ->
  signal_table SIGUSR2 ou
    (signal_table SIGSEGV os
       (signal_table SIGINT oi
          (<[SIGUSR2 := a]> (<[SIGSEGV := a]> (<[SIGINT := a]> t)))))
  = t.
Proof.
  intros Hd1 Hd2 Hd3 Ei Es Eu.
  unfold signal_table at 3. sig_lookup.
  unfold signal_table at 2. sig_lookup.
  unfold signal_table. sig_lookup.
  apply map_eq. intros k.
  destruct (decide (k = SIGUSR2)) as [->|Hk3]; [now sig_lookup|].
  destruct (decide (k = SIGSEGV)) as [->|Hk2]; [now sig_lookup|].
  destruct (decide (k = SIGINT)) as [->|Hk1]; [now sig_lookup|].
  now sig_lookup.
Qed.

(** X10.  From a state where nothing is caught, a call with a non-null
    handler returns exactly when the platform lets all three dispositions be
    set and hands back none of them as SIG_ERR; in every other case it ends
    in abort (). *)
Theorem install_returns_iff (w : world) (identifier handler data : Z) :
  SIGINT <> SIGSEGV -> SIGINT <> SIGUSR2 -> SIGSEGV <> SIGUSR2 ->
  signals_caught w = 0 -> handler <> NULL ->
  ((exists w1, p4est_set_abort_handler identifier handler data w = Returned tt w1)
   <->
   (exists oi os ou,
      sig_table w !! SIGINT = Some oi /\ oi <> SIG_ERR /\
      sig_table w !! SIGSEGV = Some os /\ os <> SIG_ERR /\
      sig_table w !! SIGUSR2 = Some ou /\ ou <> SIG_ERR)) /\
  (~ (exists oi os ou,
        sig_table w !! SIGINT = Some oi /\ oi <> SIG_ERR /\
        sig_table w !! SIGSEGV = Some os /\ os <> SIG_ERR /\
        sig_table w !! SIGUSR2 = Some ou /\ ou <> SIG_ERR) ->
   exists w', p4est_set_abort_handler identifier handler data w = Aborted w').
Proof.
  intros Hd1 Hd2 Hd3 Hc Hh. split; [split|].
  - intros [w1 Hrun]. now apply (install_returns_inv w w1 identifier handler data).
  - intros (oi & os & ou & Ei & Hi & Es & Hs & Eu & Hu).
    eexists. now apply (install_fresh_run w identifier handler data oi os ou).
  - intros Hno.
    destruct (p4est_set_abort_handler identifier handler data w)
      as [[] w1|w'] eqn:Hrun.
    + exfalso. apply Hno.
      now apply (install_returns_inv w w1 identifier handler data).
    + now exists w'.
Qed.

Ltac install_failed :=
  intros _; rewrite ?Z.eqb_refl; simpl; unfold bind, modify;
  rewrite p4est_abort_run; cbv beta iota;
  do 2 eexists; split; [symmetry; apply p4est_abort_run|].

Ltac world_eq Hc := rewrite <- Hc at 1; reflexivity.

(** X11.  When the installing call fails, the handler it was just given
    is already the registered one: the call enters the abort path, after the
    report of the failed check, from a state that holds the new identifier,
    handler and data, with the flag still 0.  The check that failed is the
    first of the three whose signal call was refused or handed back SIG_ERR;
    SIG_ERR is what was saved for it, and the signals set before it stay on
    the internal handler. *)
Theorem install_failure_calls_new_handler
    (w w' : world) (identifier handler data : Z) :
  signals_caught w = 0 -> handler <> NULL ->
  p4est_set_abort_handler identifier handler data w = Aborted w' ->
  exists msg wk,
    p4est_set_abort_handler identifier handler data w
    = @p4est_abort unit (emit (EvCheckFailed msg) wk) /\
    ((msg = "catching INT"%string /\
      wk = mkWorld (malloc_count w) (free_count w) identifier handler data 0
             SIG_ERR (system_segv_handler w) (system_usr2_handler w)
             (signal_table SIGINT p4est_signal_handler_addr (sig_table w))
             (heap w) (call_stack w) (trace w))
     \/
     (exists oi,
        sig_table w !! SIGINT = Some oi /\ oi <> SIG_ERR /\
        msg = "catching SEGV"%string /\
        wk = mkWorld (malloc_count w) (free_count w) identifier handler data 0
               oi SIG_ERR (system_usr2_handler w)
               (signal_table SIGSEGV p4est_signal_handler_addr
                  (<[SIGINT := p4est_signal_handler_addr]> (sig_table w)))
               (heap w) (call_stack w) (trace w))
     \/
     (exists oi os,
        sig_table w !! SIGINT = Some oi /\ oi <> SIG_ERR /\
        <[SIGINT := p4est_signal_handler_addr]> (sig_table w) !! SIGSEGV
        = Some os /\ os <> SIG_ERR /\
        msg = "catching USR2"%string /\
        wk = mkWorld (malloc_count w) (free_count w) identifier handler data 0
               oi os SIG_ERR
               (signal_table SIGUSR2 p4est_signal_handler_addr
                  (<[SIGSEGV := p4est_signal_handler_addr]>
                     (<[SIGINT := p4est_signal_handler_addr]> (sig_table w))))
               (heap w) (call_stack w) (trace w))).
Proof.
  intros Hc Hh Hrun. revert Hrun.
  unfold p4est_set_abort_handler, bind, modify, gets, signal, signal_table.
  simpl.
  apply Z.eqb_neq in Hh. rewrite Hh, Hc. simpl.
  destruct (sig_table w !! SIGINT) as [oi|] eqn:Ei.
  2: { install_failed. left. split; [reflexivity|]. world_eq Hc. }
  destruct (Z.eqb_spec oi SIG_ERR) as [->|Hoi]; simpl.
  { install_failed. left. split; [reflexivity|]. world_eq Hc. }
  destruct (<[SIGINT := p4est_signal_handler_addr]> (sig_table w) !! SIGSEGV)
    as [os|] eqn:Es.
  2: { install_failed. right. left. exists oi.
       split; [reflexivity|]. split; [assumption|]. split; [reflexivity|].
       world_eq Hc. }
  destruct (Z.eqb_spec os SIG_ERR) as [->|Hos]; simpl.
  { install_failed. right. left. exists oi.
    split; [reflexivity|]. split; [assumption|]. split; [reflexivity|].
    world_eq Hc. }
  destruct (<[SIGSEGV := p4est_signal_handler_addr]>
              (<[SIGINT := p4est_signal_handler_addr]> (sig_table w)) !! SIGUSR2)
    as [ou|] eqn:Eu.
  2: { install_failed. right. right. exists oi, os.
       split; [reflexivity|]. split; [assumption|]. split; [reflexivity|].
       split; [assumption|]. split; [reflexivity|].
       world_eq Hc. }
  destruct (Z.eqb_spec ou SIG_ERR) as [->|Hou]; simpl.
  { install_failed. right. right. exists oi, os.
    split; [reflexivity|]. split; [assumption|]. split; [reflexivity|].
    split; [assumption|]. split; [reflexivity|].
    world_eq Hc. }
  intros Hrun. discriminate Hrun.
Qed.

(** X12.  Removing when nothing is caught makes no signal call: the signal
    table, the flag and the saved dispositions stay, and only the stored
    identifier, handler (now null) and data change.  So removing twice is as
    good as removing once. *)
Theorem uninstall_when_not_installed (w : world) (identifier data : Z) :
  signals_caught w = 0 ->
  exists w',
    p4est_set_abort_handler identifier NULL data w = Returned tt w' /\
    sig_table w' = sig_table w /\
    signals_caught w' = 0 /\
    system_int_handler w' = system_int_handler w /\
    system_segv_handler w' = system_segv_handler w /\
    system_usr2_handler w' = system_usr2_handler w /\
    p4est_base_identifier w' = identifier /\
    p4est_abort_handler w' = NULL /\
    p4est_abort_data w' = data /\
    trace w' = trace w.
Proof.
  intros Hc. exists (rebind identifier NULL data w).
  split; [apply rebind_run; right; now split|].
  simpl. now repeat split.
Qed.

(** X13.  Install, then install again with another handler, then remove:
    the second call only rebinds, so the removal still finds the
    dispositions saved by the first call and the signal table ends exactly
    as it began.  In between, the handler an abort would call is the second
    one. *)
Theorem install_rebind_uninstall
    (w w1 : world) (id1 h1 d1 id2 h2 d2 id3 d3 : Z) :
  SIGINT <> SIGSEGV -> SIGINT <> SIGUSR2 -> SIGSEGV <> SIGUSR2 ->
  signals_caught w = 0 -> h1 <> NULL -> h2 <> NULL ->
  p4est_set_abort_handler id1 h1 d1 w = Returned tt w1 ->
  exists w2 w3,
    p4est_set_abort_handler id2 h2 d2 w1 = Returned tt w2 /\
    p4est_abort_handler w2 = h2 /\ p4est_abort_data w2 = d2 /\
    sig_table w2 = sig_table w1 /\
    p4est_set_abort_handler id3 NULL d3 w2 = Returned tt w3 /\
    sig_table w3 = sig_table w /\
    signals_caught w3 = 0.
Proof.
  intros Hd1 Hd2 Hd3 Hc Hh1 Hh2 Hrun.
  destruct (install_returns_inv w w1 id1 h1 d1 Hd1 Hd2 Hd3 Hc Hh1 Hrun)
    as (oi & os & ou & Ei & Hi & Es & Hs & Eu & Hu).
  rewrite (install_fresh_run w id1 h1 d1 oi os ou) in Hrun by assumption.
  inversion Hrun as [Hw1]. clear Hrun.
  eexists. eexists.
  split; [apply rebind_run; left; split; [exact Hh2|simpl; discriminate]|].
  split; [reflexivity|]. split; [reflexivity|]. split; [reflexivity|].
  split; [apply uninstall_run; simpl; discriminate|].
  simpl. split; [|reflexivity].
  now apply restore_table.
Qed.

(** X14.  The flag, the saved dispositions and the signal table stay
    consistent: if either nothing is caught and nothing is saved, or the
    flag is 1 and the three signals are on the internal handler, then the
    same holds after any call of p4est_set_abort_handler that returns. *)
Theorem fault_state_consistent_preserved
    (w w' : world) (identifier handler data : Z) :
  SIGINT <> SIGSEGV -> SIGINT <> SIGUSR2 -> SIGSEGV <> SIGUSR2 ->
  fault_state_consistent w ->
  p4est_set_abort_handler identifier handler data w = Returned tt w' ->
  fault_state_consistent w'.
Proof.
  intros Hd1 Hd2 Hd3 Hinv Hrun.
  destruct Hinv as [(Hc & Hi & Hs & Hu)|(Hc & Ti & Ts & Tu)].
  - destruct (Z.eq_dec handler NULL) as [Hh|Hh].
    + rewrite rebind_run in Hrun by (right; now split).
      inversion Hrun; subst w'. left. simpl. now repeat split.
    + destruct (install_returns_inv w w' identifier handler data
                  Hd1 Hd2 Hd3 Hc Hh Hrun)
        as (oi & os & ou & Ei & Hoi & Es & Hos & Eu & Hou).
      rewrite (install_fresh_run w identifier handler data oi os ou) in Hrun
        by assumption.
      inversion Hrun; subst w'. right. simpl.
      repeat split; now sig_lookup.
  - assert (Hc' : signals_caught w <> 0) by (rewrite Hc; discriminate).
    destruct (Z.eq_dec handler NULL) as [Hh|Hh].
    + subst handler. rewrite uninstall_run in Hrun by exact Hc'.
      inversion Hrun; subst w'. left. simpl. now repeat split.
    + rewrite rebind_run in Hrun by (left; now split).
      inversion Hrun; subst w'. right. simpl. now repeat split.
Qed.

(** ** Frame names and prefixes *)

Lemma lacks_strrchr (s : string) (c : ascii) :
  lacks c s = true -> strrchr s c = None.
Proof.
  induction s as [|a s IH]; simpl; [reflexivity|].
  intros H. apply andb_true_iff in H as [Ha Hs].
  rewrite (IH Hs). apply negb_true_iff in Ha. now rewrite Ha.
Qed.

Lemma strrchr_last (dir b : string) (c : ascii) :
  lacks c b = true ->
  strrchr (dir ++ String c b) c = Some (String c b).
Proof.
  intros Hb. induction dir as [|a dir IH].
  - simpl. now rewrite (lacks_strrchr b c Hb), Ascii.eqb_refl.
  - rewrite append_cons. simpl. now rewrite IH.
Qed.

(** X15.  The name a backtrace line shows is the only basename of the
    symbol string: whatever has no slash and is the string itself or what
    follows a slash in it, is what frame_name returns.  In particular a
    string without a slash is shown whole, a string ending in a slash is
    shown as nothing, and taking the name twice changes nothing. *)
Theorem frame_name_unique (b s : string) :
  is_basename_of b s ->
  frame_name s = b /\ frame_name (frame_name s) = frame_name s.
Proof.
  intros [Hb Hs].
  assert (Hname : frame_name s = b).
  { unfold frame_name. destruct Hs as [->|[dir ->]].
    - now rewrite (lacks_strrchr b "/" Hb).
    - change (dir ++ "/" ++ b)%string with (dir ++ String "/" b)%string.
      now rewrite (strrchr_last dir b "/" Hb). }
  split; [exact Hname|].
  rewrite Hname. unfold frame_name. now rewrite (lacks_strrchr b "/" Hb).
Qed.

Lemma printf_d_inj (a b : Z) : printf_d a = printf_d b -> a = b.
Proof.
  unfold printf_d. intros H.
  assert (Hnil : forall z, Z.to_int z <> Decimal.Pos Decimal.Nil /\
                           Z.to_int z <> Decimal.Neg Decimal.Nil).
  { intros [|p|p]; simpl; split; try discriminate;
      intros E; inversion E as [E'];
      now apply (Unsigned.to_uint_nonnil p). }
  apply to_int_inj.
  assert (Hsome : Some (Z.to_int a) = Some (Z.to_int b)).
  { rewrite <- (NilZero.isi (Z.to_int a)) by apply Hnil.
    rewrite <- (NilZero.isi (Z.to_int b)) by apply Hnil.
    now rewrite H. }
  now inversion Hsome.
Qed.

Lemma append_inv_tail (s1 s2 t : string) :
  (s1 ++ t = s2 ++ t)%string -> s1 = s2.
Proof.
  revert s2. induction s1 as [|a s1 IH]; intros s2 H.
  - destruct s2 as [|b s2]; [reflexivity|]. exfalso.
    apply (f_equal String.length) in H.
    rewrite !length_append in H. simpl in H. lia.
  - destruct s2 as [|b s2].
    + exfalso. apply (f_equal String.length) in H.
      rewrite !length_append in H. simpl in H. lia.
    + rewrite !append_cons in H. inversion H as [[Ha Hs]].
      now rewrite (IH s2 Hs).
Qed.

(** X16.  Two identifiers that are set give different prefixes unless
    they are the same number, and the prefix of a set identifier is never
    empty, which is the prefix of an unset one: the lines of different
    processes can be told apart. *)
Theorem abort_prefix_distinguishes (a b : Z) :
  256 <= BUFSIZ -> 0 <= a <= INT_MAX -> 0 <= b <= INT_MAX ->
  (abort_prefix a = abort_prefix b -> a = b) /\
  abort_prefix a <> EmptyString /\
  (forall c, c < 0 -> abort_prefix c = EmptyString).
Proof.
  intros HB Ha Hb.
  rewrite (abort_prefix_exact a HB Ha), (abort_prefix_exact b HB Hb).
  split; [|split].
  - intros H. rewrite !append_cons in H. inversion H as [H'].
    apply printf_d_inj.
    change ("" ++ printf_d a ++ "] ")%string with (printf_d a ++ "] ")%string in H'.
    change ("" ++ printf_d b ++ "] ")%string with (printf_d b ++ "] ")%string in H'.
    now apply (append_inv_tail _ _ "] "%string).
  - rewrite append_cons. discriminate.
  - intros c Hc. now apply abort_prefix_unset.
Qed.

End Base.

Arguments Returned {heap_t A} a w.
Arguments Aborted {heap_t A} w.

(** ** The comparator *)

(** Where the difference of the two values fits an [int], its sign is the
    sign of the comparison. *)
Lemma p4est_int32_compare_in_range (v1 v2 : Z) :
  in_int (int_wrap v1 - int_wrap v2) ->
  Z.sgn (p4est_int32_compare v1 v2) = Z.sgn (int_wrap v1 - int_wrap v2).
Proof. intros H. unfold p4est_int32_compare. now rewrite int_wrap_id. Qed.

Lemma p4est_int32_compare_equal (v : Z) : p4est_int32_compare v v = 0.
Proof. unfold p4est_int32_compare. now rewrite Z.sub_diag. Qed.

(** C3 (fails on the code).  The pointers 0xFFFFFFFF80000000 and 0x1 carry
    the values INT_MIN and 1; INT_MIN is below 1, yet the subtraction wraps
    and the comparison comes out as INT_MAX, a positive number. *)
Theorem p4est_int32_compare_sign_flip :
  int_wrap (2 ^ 64 - 2 ^ 31) = INT_MIN /\ int_wrap 1 = 1 /\
  INT_MIN < 1 /\
  p4est_int32_compare (2 ^ 64 - 2 ^ 31) 1 = INT_MAX /\
  0 < p4est_int32_compare (2 ^ 64 - 2 ^ 31) 1 /\
  Z.sgn (p4est_int32_compare (2 ^ 64 - 2 ^ 31) 1) <> Z.sgn (INT_MIN - 1).
Proof. vm_compute. repeat split; discriminate. Qed.

(** ** Worked examples *)

Lemma log2_floor_correct_witness :
  0 <= 200 <= 255 /\ log2_floor 200 = Some 7.
Proof.
  split; [lia|].
  exact (proj1 (proj1 (proj2 (log2_floor_correct 200 ltac:(lia))) ltac:(lia))).
Defined.

(** C2 (fails on the code).  p4est_calloc (2^32, 2^32) asks for more than
    zero bytes, but the product is 0 as a [size_t]: when calloc returns null
    for it the counter stays, where the stated policy counts every request of
    more than zero bytes.  The code's own siblings count such a request: a
    failed p4est_malloc of 16 bytes is counted, and so is the failed
    p4est_calloc (2^63 + 1, 2), whose product overflows to 2. *)
Lemma p4est_calloc_exact_product_counterexample :
  in_size (2 ^ 32) /\ 0 < 2 ^ 32 * 2 ^ 32 /\
  p4est_calloc bump_calloc (2 ^ 32) (2 ^ 32)
    (initial_world default_signals 4096 sample_stack)
  = Returned NULL (initial_world default_signals 4096 sample_stack) /\
  ~ calloc_keyed_on_exact_product bump_calloc
      (initial_world default_signals 4096 sample_stack) /\
  p4est_calloc bump_calloc (2 ^ 63 + 1) 2
    (initial_world default_signals 4096 sample_stack)
  = Returned NULL
      (set_malloc_count 1 (initial_world default_signals 4096 sample_stack)) /\
  p4est_malloc (fun _ (h : Z) => (NULL, h)) 16
    (initial_world default_signals 4096 sample_stack)
  = Returned NULL
      (set_malloc_count 1 (initial_world default_signals 4096 sample_stack)).
Proof.
  assert (Hin : in_size (2 ^ 32)) by (unfold in_size, SIZE_MAX; lia).
  assert (Hrun : p4est_calloc bump_calloc (2 ^ 32) (2 ^ 32)
                   (initial_world default_signals 4096 sample_stack)
                 = Returned NULL (initial_world default_signals 4096 sample_stack))
    by reflexivity.
  split; [exact Hin|]. split; [lia|]. split; [exact Hrun|].
  split; [|split; reflexivity].
  intros Hclaim.
  specialize (Hclaim (2 ^ 32) (2 ^ 32) _ _ Hin Hin ltac:(lia) Hrun).
  discriminate Hclaim.
Qed.

Lemma p4est_malloc_calloc_counts_witness :
  exists w',
    p4est_calloc bump_calloc 4 16 (initial_world default_signals 4096 sample_stack)
    = Returned 4096 w' /\ malloc_count w' = 1.
Proof.
  destruct (p4est_malloc_calloc_counts bump_malloc bump_calloc
              (initial_world default_signals 4096 sample_stack) 16 4)
    as [_ (w' & Hrun & _ & _ & Hpos & _)].
  - simpl. unfold INT_MIN, INT_MAX. lia.
  - exists w'. split; [exact Hrun|]. apply Hpos. reflexivity.
Defined.

Lemma p4est_realloc_counts_witness :
  (exists wm wr,
     p4est_malloc bump_malloc 16 (initial_world default_signals 8192 sample_stack)
     = Returned 8192 wm /\
     p4est_realloc bump_realloc NULL 16 (initial_world default_signals 8192 sample_stack)
     = Returned 8192 wr /\
     malloc_count wr = malloc_count wm) /\
  (exists wr,
     p4est_realloc bump_realloc 4096 0 (initial_world default_signals 8192 sample_stack)
     = Returned NULL wr /\ free_count wr = 1).
Proof.
  split.
  - destruct (p4est_realloc_counts bump_malloc bump_realloc
                (initial_world default_signals 8192 sample_stack) NULL 16)
      as [Hnull _].
    destruct Hnull as (wm & wr & Hm & Hr & Hcount & _).
    + reflexivity.
    + simpl. split; discriminate.
    + exists wm, wr. split; [exact Hm|]. split; [exact Hr|exact Hcount].
  - destruct (p4est_realloc_counts bump_malloc bump_realloc
                (initial_world default_signals 8192 sample_stack) 4096 0)
      as [_ Hfree].
    destruct Hfree as (wr & Hrun & _ & Hnull & _).
    + discriminate.
    + reflexivity.
    + simpl. unfold INT_MIN, INT_MAX. lia.
    + exists wr. split; [exact Hrun|]. apply Hnull. reflexivity.
Defined.

Lemma p4est_realloc_resize_frame_witness :
  p4est_realloc bump_realloc 4096 32 (initial_world default_signals 8192 sample_stack)
  = Returned 8192 (set_heap 8224 (initial_world default_signals 8192 sample_stack)).
Proof.
  apply (p4est_realloc_resize_frame bump_realloc
           (initial_world default_signals 8192 sample_stack) 4096 32).
  - discriminate.
  - lia.
Defined.

Lemma p4est_free_counts_witness :
  exists w',
    p4est_free bump_free 4096 (initial_world default_signals 8192 sample_stack)
    = Returned tt w' /\ free_count w' = 1.
Proof.
  destruct (p4est_free_counts bump_free
              (initial_world default_signals 8192 sample_stack) 4096)
    as [_ Hfree].
  destruct Hfree as (w' & Hrun & Hcount & _).
  - discriminate.
  - simpl. unfold INT_MIN, INT_MAX. lia.
  - exists w'. split; [exact Hrun|exact Hcount].
Defined.

Lemma p4est_memory_check_balance_witness :
  p4est_memory_check 8192 true (initial_world default_signals 4096 sample_stack)
  = Returned tt (initial_world default_signals 4096 sample_stack).
Proof.
  apply (p4est_memory_check_balance 8192 true
           (initial_world default_signals 4096 sample_stack)).
  reflexivity.
Defined.

(** A state with the signals caught, as the first installing call leaves it. *)
Lemma p4est_set_abort_handler_rebind_witness :
  exists w',
    p4est_set_abort_handler 2 11 12 (-1) 8192 true 4198400 9 5151 64
      (set_signals_caught 1 (initial_world default_signals 4096 sample_stack))
    = Returned tt w' /\
    p4est_abort_handler w' = 5151 /\ sig_table w' = default_signals.
Proof.
  destruct (p4est_set_abort_handler_rebind 2 11 12 (-1) 8192 true 4198400
              (set_signals_caught 1 (initial_world default_signals 4096 sample_stack))
              9 5151 64)
    as (w' & Hrun & _ & Hh & _ & Ht & _).
  - discriminate.
  - discriminate.
  - exists w'. split; [exact Hrun|]. split; [exact Hh|exact Ht].
Defined.

Lemma p4est_set_abort_handler_roundtrip_witness :
  exists w1 w2,
    p4est_set_abort_handler 2 11 12 (-1) 8192 true 4198400 7 4242 0
      (initial_world default_signals 4096 sample_stack) = Returned tt w1 /\
    sig_table w1 !! 2 = Some 4198400 /\
    p4est_set_abort_handler 2 11 12 (-1) 8192 true 4198400 7 NULL 0 w1
    = Returned tt w2 /\
    sig_table w2 = default_signals /\ signals_caught w2 = 0.
Proof.
  eexists.
  assert (Hrun : p4est_set_abort_handler 2 11 12 (-1) 8192 true 4198400 7 4242 0
                   (initial_world default_signals 4096 sample_stack)
                 = Returned tt _) by (vm_compute; reflexivity).
  destruct (p4est_set_abort_handler_roundtrip 2 11 12 (-1) 8192 true 4198400
              (initial_world default_signals 4096 sample_stack) _ 7 4242 0
              ltac:(discriminate) ltac:(discriminate) ltac:(discriminate)
              eq_refl ltac:(discriminate) Hrun)
    as [(_ & Hint & _) (w2 & Hrun2 & Ht & Hc & _)].
  exists w2. split; [exact Hrun|]. split; [exact Hint|].
  split; [exact Hrun2|]. split; [exact Ht|exact Hc].
Defined.

(** Identifier 7 and one frame: the frame line has four spaces after "[7]",
    one from the prefix and three from the format, where the stated format
    has three. *)
Lemma p4est_abort_report_counterexample :
  exists w',
    @p4est_abort Z 8192 true unit
      (set_p4est_base_identifier 7 (initial_world default_signals 4096 ["/bin/main"%string]))
    = Aborted w' /\
    written Stderr (trace w')
    = ("[7] Abort: Obtained 1 stack frames" ++ newline
       ++ "[7]    main" ++ newline)%string /\
    stated_report_text 7 ["main"%string]
    = ("[7] Abort: Obtained 1 stack frames" ++ newline
       ++ "[7]   main" ++ newline)%string /\
    written Stderr (trace w') <> stated_report_text 7 ["main"%string].
Proof.
  eexists. split; [vm_compute; reflexivity|].
  split; [vm_compute; reflexivity|].
  split; [vm_compute; reflexivity|].
  vm_compute. discriminate.
Qed.

Lemma p4est_abort_report_witness :
  exists w',
    @p4est_abort Z 8192 true unit
      (set_p4est_base_identifier 7 (initial_world default_signals 4096 sample_stack))
    = Aborted w' /\
    written Stderr (trace w')
    = report_text "[7] " [ "libp4est.so(p4est_abort+0x2c) [0x7f01]";
                           "p4est_test(main+0x1f) [0x4011]" ]%string.
Proof.
  destruct (p4est_abort_report 8192 true
              (set_p4est_base_identifier 7
                 (initial_world default_signals 4096 sample_stack)))
    as (w' & names & Hrun & Hnames & Hset & _).
  - reflexivity.
  - lia.
  - simpl. unfold in_int, INT_MIN, INT_MAX. lia.
  - exists w'. split; [exact Hrun|].
    rewrite p4est_abort_run in Hrun. inversion Hrun; subst w'.
    vm_compute. reflexivity.
Defined.

(** ** More on the comparator and the table *)

Lemma int_wrap_mod (z : Z) : int_wrap z mod 2 ^ 32 = z mod 2 ^ 32.
Proof.
  unfold int_wrap.
  change (2 ^ 31) with 2147483648. change (2 ^ 32) with 4294967296.
  Z.div_mod_to_equations. lia.
Qed.

(** X17.  The comparison is zero exactly when the two arguments agree in
    their low 32 bits, overflow or not: equal values are always reported
    equal, different values never are, and the upper half of a 64-bit
    argument is ignored. *)
Theorem p4est_int32_compare_zero_iff (v1 v2 : Z) :
  (p4est_int32_compare v1 v2 = 0 <-> int_wrap v1 = int_wrap v2) /\
  (int_wrap v1 = int_wrap v2 <-> v1 mod 2 ^ 32 = v2 mod 2 ^ 32).
Proof.
  split.
  - unfold p4est_int32_compare.
    pose proof (int_wrap_range v1) as H1. pose proof (int_wrap_range v2) as H2.
    unfold in_int, INT_MIN, INT_MAX in H1, H2.
    generalize dependent (int_wrap v1). generalize dependent (int_wrap v2).
    intros b Hb a Ha. unfold int_wrap.
    change (2 ^ 31) with 2147483648 in *. change (2 ^ 32) with 4294967296.
    split; intros H.
    + revert H. Z.div_mod_to_equations. lia.
    + subst b. rewrite Z.sub_diag. reflexivity.
  - split; intros H.
    + now rewrite <- (int_wrap_mod v1), <- (int_wrap_mod v2), H.
    + unfold int_wrap.
      change (2 ^ 31) with 2147483648 in *. change (2 ^ 32) with 4294967296 in *.
      revert H. Z.div_mod_to_equations. lia.
Qed.

(** X18.  For two values of the same sign (both at least zero, or both
    below zero) the subtraction cannot overflow: the comparison is their
    exact difference, so it is negative, zero or positive as the first value
    is below, equal to or above the second. *)
Theorem p4est_int32_compare_same_sign (v1 v2 : Z) :
  (0 <= int_wrap v1 /\ 0 <= int_wrap v2) \/
  (int_wrap v1 < 0 /\ int_wrap v2 < 0) ->
  p4est_int32_compare v1 v2 = int_wrap v1 - int_wrap v2 /\
  (p4est_int32_compare v1 v2 < 0 <-> int_wrap v1 < int_wrap v2) /\
  (p4est_int32_compare v1 v2 = 0 <-> int_wrap v1 = int_wrap v2) /\
  (0 < p4est_int32_compare v1 v2 <-> int_wrap v2 < int_wrap v1).
Proof.
  intros Hsign.
  pose proof (int_wrap_range v1) as H1. pose proof (int_wrap_range v2) as H2.
  assert (Heq : p4est_int32_compare v1 v2 = int_wrap v1 - int_wrap v2).
  { unfold p4est_int32_compare. apply int_wrap_id.
    unfold in_int, INT_MIN, INT_MAX in *. lia. }
  rewrite Heq. split; [reflexivity|]. lia.
Qed.

Lemma log2_floor_read (v : Z) :
  0 <= v <= 255 -> log2_floor v = Some (log2_floor_spec v).
Proof.
  intros Hv. unfold log2_floor.
  replace ((0 <=? v) && (v <? 256))%bool with true
    by (symmetry; apply andb_true_iff; split; [apply Z.leb_le|apply Z.ltb_lt]; lia).
  rewrite table_entry by lia. now rewrite Z2Nat.id by lia.
Qed.

(** X19.  For a byte from 1 to 255 the table entry is the position of the
    highest set bit: that bit is set, no bit above it is, and the entry
    lies between 0 and 7. *)
Theorem log2_floor_highest_bit (v : Z) :
  1 <= v <= 255 ->
  exists t,
    log2_floor v = Some t /\ 0 <= t <= 7 /\
    Z.testbit v t = true /\
    (forall j, t < j -> Z.testbit v j = false).
Proof.
  intros Hv. exists (Z.log2 v).
  rewrite log2_floor_read by lia. unfold log2_floor_spec.
  destruct (Z.eqb_spec v 0); [lia|].
  split; [reflexivity|]. split.
  - split; [apply Z.log2_nonneg|].
    assert (Z.log2 v < 8) by (apply Z.log2_lt_pow2; [lia|change (2 ^ 8) with 256; lia]).
    lia.
  - split; [apply Z.bit_log2; lia|].
    intros j Hj. apply Z.bits_above_log2; lia.
Qed.

(** X20.  The table never decreases: a larger byte has an entry at least
    as large, from -1 at 0 up to 7 at 255. *)
Theorem log2_floor_monotone (v v' : Z) :
  0 <= v -> v <= v' -> v' <= 255 ->
  exists t t',
    log2_floor v = Some t /\ log2_floor v' = Some t' /\
    -1 <= t /\ t <= t' /\ t' <= 7.
Proof.
  intros H0 Hle H255.
  exists (log2_floor_spec v), (log2_floor_spec v').
  rewrite !log2_floor_read by lia.
  split; [reflexivity|]. split; [reflexivity|].
  unfold log2_floor_spec.
  pose proof (Z.log2_nonneg v). pose proof (Z.log2_nonneg v').
  pose proof (Z.log2_le_mono v v' Hle).
  assert (v' = 0 \/ Z.log2 v' < 8) as Hb.
  { destruct (Z.eq_dec v' 0); [now left|right].
    apply Z.log2_lt_pow2; [lia|change (2 ^ 8) with 256; lia]. }
  destruct (Z.eqb_spec v 0); destruct (Z.eqb_spec v' 0); lia.
Qed.

(** X21.  The table finds the highest set bit of wider numbers: when
    shifting x right by k leaves a byte from 1 to 255, the entry for that
    byte plus k is floor (log2 x). *)
Theorem log2_floor_shifted (x k : Z) :
  0 <= k -> 1 <= Z.shiftr x k <= 255 ->
  exists t, log2_floor (Z.shiftr x k) = Some t /\ t + k = Z.log2 x.
Proof.
  intros Hk Hs. exists (Z.log2 (Z.shiftr x k)).
  rewrite log2_floor_read by lia. unfold log2_floor_spec.
  destruct (Z.eqb_spec (Z.shiftr x k) 0); [lia|].
  split; [reflexivity|].
  assert (Hx : 0 < x).
  { destruct (Z.lt_trichotomy x 0) as [Hneg|[->|Hpos]]; [|rewrite Z.shiftr_0_l in Hs; lia|exact Hpos].
    exfalso. assert (Z.shiftr x k < 0) by (apply Z.shiftr_neg; exact Hneg). lia. }
  rewrite Z.log2_shiftr by exact Hx.
  assert (Hlog : k <= Z.log2 x).
  { destruct (Z.le_gt_cases k (Z.log2 x)) as [|Hgt]; [assumption|].
    rewrite Z.shiftr_eq_0 in Hs by lia. lia. }
  lia.
Qed.

(** ** Worked examples for the further properties *)

Lemma malloc_free_pair_balance_witness :
  exists w2,
    p4est_free bump_free 4096
      (set_malloc_count 1
         (set_heap 4112 (initial_world default_signals 4096 sample_stack)))
    = Returned tt w2 /\ balanced w2.
Proof.
  destruct (malloc_free_pair_balance bump_malloc bump_free
              (initial_world default_signals 4096 sample_stack) 16)
    as (r & w1 & w2 & Hm & Hf & Hiff).
  - simpl. unfold in_int, INT_MIN, INT_MAX. lia.
  - reflexivity.
  - assert (Hr : r = 4096 /\ w1 = set_malloc_count 1
                     (set_heap 4112 (initial_world default_signals 4096 sample_stack)))
      by (vm_compute in Hm; now inversion Hm).
    destruct Hr as [-> ->].
    exists w2. split; [exact Hf|]. apply Hiff. intros [_ Hnull]. discriminate Hnull.
Defined.

Lemma malloc_free_pairs_balanced_witness :
  exists w',
    malloc_free_pairs roomy_malloc bump_free [16; 0; 32]
      (initial_world default_signals 4096 sample_stack) = Returned tt w' /\
    balanced w' /\
    p4est_memory_check 8192 true w' = Returned tt w'.
Proof.
  destruct (malloc_free_pairs_balanced roomy_malloc bump_free 8192 true [16; 0; 32]
              (initial_world default_signals 4096 sample_stack))
    as (w' & Hrun & Hbal & _ & Hcheck).
  - intros size h Hs. unfold roomy_malloc.
    destruct (Z.eqb_spec size 0); [lia|]. simpl. unfold NULL. lia.
  - simpl. unfold in_int, INT_MIN, INT_MAX. lia.
  - reflexivity.
  - exists w'. split; [exact Hrun|]. split; [exact Hbal|exact Hcheck].
Defined.

Lemma realloc_zero_then_free_witness :
  exists r w1 w2,
    p4est_realloc bump_realloc 4096 0
      (initial_world default_signals 8192 sample_stack) = Returned r w1 /\
    p4est_free bump_free r w1 = Returned tt w2 /\
    free_count w2 = 1.
Proof.
  destruct (realloc_zero_then_free bump_realloc bump_free
              (initial_world default_signals 8192 sample_stack) 4096)
    as (r & w1 & w2 & Hr & Hf & Hc & _).
  - discriminate.
  - simpl. unfold INT_MIN, INT_MAX. lia.
  - exists r, w1, w2. split; [exact Hr|]. split; [exact Hf|exact Hc].
Defined.

Lemma unmatched_call_detected_witness :
  exists r w1 w',
    p4est_malloc bump_malloc 16
      (initial_world default_signals 4096 sample_stack) = Returned r w1 /\
    p4est_memory_check 8192 true w1 = Aborted w'.
Proof.
  destruct (unmatched_call_detected bump_malloc bump_free 8192 true
              (initial_world default_signals 4096 sample_stack) 16 0)
    as [Hmalloc _].
  - simpl. unfold in_int, INT_MIN, INT_MAX. lia.
  - reflexivity.
  - apply Hmalloc. lia.
Defined.


Lemma p4est_abort_silent_witness :
  exists w',
    @p4est_abort Z 8192 false unit
      (rebind 7 4242 64 (initial_world default_signals 4096 sample_stack))
    = Aborted w' /\
    trace w' = [EvFlush Stdout; EvFlush Stderr; EvCall 4242 64; EvAbort].
Proof.
  destruct (p4est_abort_silent 8192 false
              (rebind 7 4242 64 (initial_world default_signals 4096 sample_stack))
              eq_refl)
    as (w' & Hrun & Htrace & _).
  exists w'. split; [exact Hrun|exact Htrace].
Defined.

Lemma p4est_abort_frame_cap_witness :
  exists w',
    @p4est_abort Z 8192 true unit
      (initial_world default_signals 4096 (repeat "main"%string 100))
    = Aborted w' /\
    length (firstn 64 (repeat "main"%string 100)) = 64%nat.
Proof.
  destruct (p4est_abort_frame_cap 8192 true
              (initial_world default_signals 4096 (repeat "main"%string 100))
              eq_refl)
    as (w' & Hrun & Hlen & _).
  exists w'. split; [exact Hrun|exact Hlen].
Defined.

Lemma p4est_signal_handler_report_witness :
  p4est_signal_handler 2 11 12 8192 false 11
    (initial_world default_signals 4096 sample_stack)
  = @p4est_abort Z 8192 false unit
      (emit (EvWrite Stderr ("Abort: Signal SEGV" ++ newline)%string)
         (initial_world default_signals 4096 sample_stack)).
Proof.
  destruct (p4est_signal_handler_report 2 11 12 8192 false 11
              (initial_world default_signals 4096 sample_stack))
    as (name & _ & Hsegv & _ & _ & Hrun).
  - discriminate.
  - discriminate.
  - discriminate.
  - rewrite (Hsegv eq_refl) in Hrun. exact Hrun.
Defined.

Lemma install_returns_iff_witness :
  exists w1,
    p4est_set_abort_handler 2 11 12 (-1) 8192 true 4198400 7 4242 0
      (initial_world default_signals 4096 sample_stack) = Returned tt w1.
Proof.
  apply (install_returns_iff 2 11 12 (-1) 8192 true 4198400
           (initial_world default_signals 4096 sample_stack) 7 4242 0);
    try discriminate; try reflexivity.
  exists 0, 0, 0. repeat split; discriminate.
Defined.

Lemma install_failure_calls_new_handler_witness :
  exists w' msg wk,
    p4est_set_abort_handler 2 11 12 (-1) 8192 false 4198400 7 4242 64
      (initial_world {[ 2 := 0; 12 := 0 ]} 4096 sample_stack) = Aborted w' /\
    p4est_set_abort_handler 2 11 12 (-1) 8192 false 4198400 7 4242 64
      (initial_world {[ 2 := 0; 12 := 0 ]} 4096 sample_stack)
    = @p4est_abort Z 8192 false unit (emit (EvCheckFailed msg) wk) /\
    p4est_abort_handler wk = 4242 /\ p4est_abort_data wk = 64 /\
    signals_caught wk = 0.
Proof.
  eexists.
  assert (Hrun : p4est_set_abort_handler 2 11 12 (-1) 8192 false 4198400 7 4242 64
                   (initial_world {[ 2 := 0; 12 := 0 ]} 4096 sample_stack)
                 = Aborted _) by (vm_compute; reflexivity).
  destruct (install_failure_calls_new_handler 2 11 12 (-1) 8192 false 4198400
              (initial_world {[ 2 := 0; 12 := 0 ]} 4096 sample_stack) _ 7 4242 64
              eq_refl ltac:(discriminate) Hrun)
    as (msg & wk & Heq & Hcase).
  exists msg, wk. split; [exact Hrun|]. split; [exact Heq|].
  destruct Hcase as [[_ ->]|[(oi & _ & _ & _ & ->)|(oi & os & _ & _ & _ & _ & _ & ->)]];
    repeat split.
Defined.

Lemma uninstall_when_not_installed_witness :
  exists w',
    p4est_set_abort_handler 2 11 12 (-1) 8192 true 4198400 7 NULL 0
      (initial_world default_signals 4096 sample_stack) = Returned tt w' /\
    sig_table w' = default_signals.
Proof.
  destruct (uninstall_when_not_installed 2 11 12 (-1) 8192 true 4198400
              (initial_world default_signals 4096 sample_stack) 7 0 eq_refl)
    as (w' & Hrun & Ht & _).
  exists w'. split; [exact Hrun|exact Ht].
Defined.

Lemma install_rebind_uninstall_witness :
  exists w1 w2 w3,
    p4est_set_abort_handler 2 11 12 (-1) 8192 true 4198400 7 4242 0
      (initial_world default_signals 4096 sample_stack) = Returned tt w1 /\
    p4est_set_abort_handler 2 11 12 (-1) 8192 true 4198400 8 5151 64 w1
    = Returned tt w2 /\
    p4est_set_abort_handler 2 11 12 (-1) 8192 true 4198400 9 NULL 0 w2
    = Returned tt w3 /\
    sig_table w3 = default_signals.
Proof.
  eexists.
  assert (Hrun : p4est_set_abort_handler 2 11 12 (-1) 8192 true 4198400 7 4242 0
                   (initial_world default_signals 4096 sample_stack)
                 = Returned tt _) by (vm_compute; reflexivity).
  destruct (install_rebind_uninstall 2 11 12 (-1) 8192 true 4198400
              (initial_world default_signals 4096 sample_stack) _
              7 4242 0 8 5151 64 9 0
              ltac:(discriminate) ltac:(discriminate) ltac:(discriminate)
              eq_refl ltac:(discriminate) ltac:(discriminate) Hrun)
    as (w2 & w3 & Hr2 & _ & _ & _ & Hr3 & Ht & _).
  exists w2, w3. split; [exact Hrun|]. split; [exact Hr2|].
  split; [exact Hr3|exact Ht].
Defined.

Lemma fault_state_consistent_preserved_witness :
  exists w',
    p4est_set_abort_handler 2 11 12 (-1) 8192 true 4198400 7 4242 0
      (initial_world default_signals 4096 sample_stack) = Returned tt w' /\
    fault_state_consistent 2 11 12 4198400 w'.
Proof.
  eexists.
  assert (Hrun : p4est_set_abort_handler 2 11 12 (-1) 8192 true 4198400 7 4242 0
                   (initial_world default_signals 4096 sample_stack)
                 = Returned tt _) by (vm_compute; reflexivity).
  split; [exact Hrun|].
  apply (fault_state_consistent_preserved 2 11 12 (-1) 8192 true 4198400
           (initial_world default_signals 4096 sample_stack) _ 7 4242 0);
    try discriminate; [|exact Hrun].
  left. repeat split.
Defined.

Lemma frame_name_unique_witness :
  frame_name "/usr/lib/libp4est.so(p4est_abort+0x2c)"
  = "libp4est.so(p4est_abort+0x2c)"%string.
Proof.
  apply (frame_name_unique "libp4est.so(p4est_abort+0x2c)"
           "/usr/lib/libp4est.so(p4est_abort+0x2c)").
  split; [reflexivity|]. right. exists "/usr/lib"%string. reflexivity.
Defined.

Lemma abort_prefix_distinguishes_witness :
  abort_prefix 8192 3 <> abort_prefix 8192 30.
Proof.
  intros H.
  destruct (abort_prefix_distinguishes 8192 3 30) as [Hinj _].
  - lia.
  - unfold INT_MAX. lia.
  - unfold INT_MAX. lia.
  - specialize (Hinj H). discriminate Hinj.
Defined.

Lemma p4est_int32_compare_same_sign_witness :
  p4est_int32_compare 3 9 < 0.
Proof.
  apply (p4est_int32_compare_same_sign 3 9).
  - left. vm_compute. split; discriminate.
  - vm_compute. reflexivity.
Defined.

Lemma log2_floor_highest_bit_witness :
  exists t, log2_floor 200 = Some t /\ Z.testbit 200 t = true.
Proof.
  destruct (log2_floor_highest_bit 200) as (t & Ht & _ & Hbit & _).
  - lia.
  - exists t. split; [exact Ht|exact Hbit].
Defined.

Lemma log2_floor_monotone_witness :
  exists t t', log2_floor 0 = Some t /\ log2_floor 96 = Some t' /\ t <= t'.
Proof.
  destruct (log2_floor_monotone 0 96) as (t & t' & Ht & Ht' & _ & Hle & _).
  - lia.
  - lia.
  - lia.
  - exists t, t'. split; [exact Ht|]. split; [exact Ht'|exact Hle].
Defined.

Lemma log2_floor_shifted_witness :
  exists t, log2_floor (Z.shiftr 40000 8) = Some t /\ t + 8 = Z.log2 40000.
Proof.
  apply (log2_floor_shifted 40000 8).
  - lia.
  - vm_compute. split; discriminate.
Defined.
